(** * Local Backbone Router service (src/core/backbone_router/bbr_local.cpp)

    A shallow embedding of [ot::BackboneRouter::Local]: the role state
    machine (Disabled / Secondary / Primary), the registration of the
    Backbone Router service, the stored Domain Prefix, the tick-driven
    registration countdown and the banded sequence number.

    The class fields are a record [Local]; every member function is a
    computation in a small monad that threads the instance and collects, in
    order, the calls made into the other subsystems ([Notifier],
    [NetworkData::Service::Manager], [TimeTicker], [ThreadNetif], ...).
    What the other subsystems answer during one member-function call is an
    [Env]; constants, macros and helpers declared in headers that are not
    part of this file are a [Platform]. *)

From Stdlib Require Import ZArith Bool String List Lia.
Import ListNotations.
Open Scope Z_scope.

(** ** Machine integers *)

(** [uint8_t] and [uint16_t] values are integers; the wrap-around of an
    arithmetic result stored back into such a field is written out. *)
Definition wrap8 (x : Z) : Z := x mod 256.
Definition wrap16 (x : Z) : Z := x mod 65536.

(** ** Data model *)

(** [Local::State]. *)
Inductive State : Type :=
| kStateDisabled
| kStateSecondary
| kStatePrimary.

Definition State_eqb (a b : State) : bool :=
  match a, b with
  | kStateDisabled, kStateDisabled => true
  | kStateSecondary, kStateSecondary => true
  | kStatePrimary, kStatePrimary => true
  | _, _ => false
  end.

(** [Error] codes that occur in this file, and [kErrorNoBufs] as one of the
    codes a collaborator can hand back. *)
Inductive Error : Type :=
| kErrorNone
| kErrorInvalidArgs
| kErrorInvalidState
| kErrorNotFound
| kErrorNoBufs.

Definition Error_isNone (e : Error) : bool :=
  match e with
  | kErrorNone => true
  | _ => false
  end.

(** [Local::RegisterMode]. *)
Inductive RegisterMode : Type :=
| kDecideBasedOnState
| kForceRegistration.

(** The two [Notifier] events this file signals. *)
Inductive Event : Type :=
| kEventThreadBackboneRouterStateChanged
| kEventThreadBackboneRouterLocalChanged.

(** [Ip6::Address]: sixteen bytes. *)
Definition Ip6Address : Type := list Z.

(** [Ip6::Prefix]: the prefix bytes and the length in bits. *)
Record Ip6Prefix : Type := mkIp6Prefix {
  mPrefixBytes : list Z;
  mLength : Z
}.

Definition SetLength (aLength : Z) (p : Ip6Prefix) : Ip6Prefix :=
  mkIp6Prefix (mPrefixBytes p) aLength.

(** [NetworkData::OnMeshPrefixConfig]: the prefix and the route metadata
    (preference and flags), the latter kept as one number. *)
Record OnMeshPrefixConfig : Type := mkOnMeshPrefixConfig {
  mPrefix : Ip6Prefix;
  mRouteMetadata : Z
}.

(** [BackboneRouter::Config] as handed to [SetConfig] and to
    [HandleBackboneRouterPrimaryUpdate]. *)
Module Config.
Record t : Type := mk {
  mServer16 : Z;
  mReregistrationDelay : Z;
  mMlrTimeout : Z;
  mSequenceNumber : Z
}.
End Config.

(** [NetworkData::Service::BackboneRouter::ServerData]. *)
Record ServerData : Type := mkServerData {
  sdSequenceNumber : Z;
  sdReregistrationDelay : Z;
  sdMlrTimeout : Z
}.

(** The fields of [Local].  The class declaration is in bbr_local.hpp;
    from this file: [mSequenceNumber] is a [uint8_t] (the constructor and
    the [switch] of [SequenceNumberIncrease]), [mRegistrationJitter] is
    widened to [uint16_t] before 1 is added, and [mRegistrationTimeout]
    takes the sum of 1 and a [uint16_t] draw.  The theorems state the
    range of a field where they depend on it. *)
Record Local : Type := mkLocal {
  mState : State;
  mMlrTimeout : Z;
  mReregistrationDelay : Z;
  mRegistrationTimeout : Z;
  mSequenceNumber : Z;
  mRegistrationJitter : Z;
  mIsServiceAdded : bool;
  mDomainPrefixConfig : OnMeshPrefixConfig;
  mBackboneRouterPrimaryAloc : Ip6Address;
  mAllNetworkBackboneRouters : Ip6Address;
  mAllDomainBackboneRouters : Ip6Address
}.

Definition set_mState (v : State) (l : Local) : Local :=
  mkLocal v (mMlrTimeout l) (mReregistrationDelay l) (mRegistrationTimeout l)
    (mSequenceNumber l) (mRegistrationJitter l) (mIsServiceAdded l)
    (mDomainPrefixConfig l) (mBackboneRouterPrimaryAloc l)
    (mAllNetworkBackboneRouters l) (mAllDomainBackboneRouters l).

Definition set_mMlrTimeout (v : Z) (l : Local) : Local :=
  mkLocal (mState l) v (mReregistrationDelay l) (mRegistrationTimeout l)
    (mSequenceNumber l) (mRegistrationJitter l) (mIsServiceAdded l)
    (mDomainPrefixConfig l) (mBackboneRouterPrimaryAloc l)
    (mAllNetworkBackboneRouters l) (mAllDomainBackboneRouters l).

Definition set_mReregistrationDelay (v : Z) (l : Local) : Local :=
  mkLocal (mState l) (mMlrTimeout l) v (mRegistrationTimeout l)
    (mSequenceNumber l) (mRegistrationJitter l) (mIsServiceAdded l)
    (mDomainPrefixConfig l) (mBackboneRouterPrimaryAloc l)
    (mAllNetworkBackboneRouters l) (mAllDomainBackboneRouters l).

Definition set_mRegistrationTimeout (v : Z) (l : Local) : Local :=
  mkLocal (mState l) (mMlrTimeout l) (mReregistrationDelay l) v
    (mSequenceNumber l) (mRegistrationJitter l) (mIsServiceAdded l)
    (mDomainPrefixConfig l) (mBackboneRouterPrimaryAloc l)
    (mAllNetworkBackboneRouters l) (mAllDomainBackboneRouters l).

Definition set_mSequenceNumber (v : Z) (l : Local) : Local :=
  mkLocal (mState l) (mMlrTimeout l) (mReregistrationDelay l)
    (mRegistrationTimeout l) v (mRegistrationJitter l) (mIsServiceAdded l)
    (mDomainPrefixConfig l) (mBackboneRouterPrimaryAloc l)
    (mAllNetworkBackboneRouters l) (mAllDomainBackboneRouters l).

Definition set_mIsServiceAdded (v : bool) (l : Local) : Local :=
  mkLocal (mState l) (mMlrTimeout l) (mReregistrationDelay l)
    (mRegistrationTimeout l) (mSequenceNumber l) (mRegistrationJitter l) v
    (mDomainPrefixConfig l) (mBackboneRouterPrimaryAloc l)
    (mAllNetworkBackboneRouters l) (mAllDomainBackboneRouters l).

Definition set_mDomainPrefixConfig (v : OnMeshPrefixConfig) (l : Local) : Local :=
  mkLocal (mState l) (mMlrTimeout l) (mReregistrationDelay l)
    (mRegistrationTimeout l) (mSequenceNumber l) (mRegistrationJitter l)
    (mIsServiceAdded l) v (mBackboneRouterPrimaryAloc l)
    (mAllNetworkBackboneRouters l) (mAllDomainBackboneRouters l).

Definition set_mBackboneRouterPrimaryAloc (v : Ip6Address) (l : Local) : Local :=
  mkLocal (mState l) (mMlrTimeout l) (mReregistrationDelay l)
    (mRegistrationTimeout l) (mSequenceNumber l) (mRegistrationJitter l)
    (mIsServiceAdded l) (mDomainPrefixConfig l) v
    (mAllNetworkBackboneRouters l) (mAllDomainBackboneRouters l).

Definition set_mAllNetworkBackboneRouters (v : Ip6Address) (l : Local) : Local :=
  mkLocal (mState l) (mMlrTimeout l) (mReregistrationDelay l)
    (mRegistrationTimeout l) (mSequenceNumber l) (mRegistrationJitter l)
    (mIsServiceAdded l) (mDomainPrefixConfig l) (mBackboneRouterPrimaryAloc l)
    v (mAllDomainBackboneRouters l).

(** ** Calls into the other subsystems *)

(** One constructor per outward call the modelled member functions make.
    The two logging helpers at the end of the file are calls as well: they
    are the [OT_SHOULD_LOG_AT(OT_LOG_LEVEL_INFO)] definitions, which print
    the action, the fields they read and the error. *)
Inductive Call : Type :=
| NotifierSignal (e : Event)
| ServiceManagerAdd (d : ServerData)
| ServiceManagerRemove
| HandleServerDataUpdated
| TimeTickerRegisterReceiver
| TimeTickerUnregisterReceiver
| NetifAddUnicastAddress (a : Ip6Address)
| NetifRemoveUnicastAddress (a : Ip6Address)
| NetworkDataAddOnMeshPrefix (c : OnMeshPrefixConfig)
| NetworkDataRemoveOnMeshPrefix (p : Ip6Prefix)
| LogInfoService (aAction : string) (seqno delay timeout : Z) (aError : Error)
| LogInfoDomainPrefix (aAction : string) (p : Ip6Prefix) (aError : Error).

(** What the other subsystems answer while one member function runs.  All
    handlers run to completion on one thread, so an answer cannot change
    in the middle of a call. *)
Record Env : Type := mkEnv {
  IsAttached : bool;                      (* Get<Mle::Mle>().IsAttached() *)
  IsLeader : bool;                        (* Get<Mle::MleRouter>().IsLeader() *)
  GetRloc16 : Z;                          (* Get<Mle::MleRouter>().GetRloc16() *)
  GetMeshLocalPrefix : Ip6Prefix;         (* Get<Mle::MleRouter>().GetMeshLocalPrefix() *)
  GetRouterSelectionJitterTimeout : Z;    (* Get<Mle::MleRouter>().GetRouterSelectionJitterTimeout() *)
  HasPrimary : bool;                      (* Get<BackboneRouter::Leader>().HasPrimary() *)
  GetServer16 : Z;                        (* Get<BackboneRouter::Leader>().GetServer16() *)
  ServiceAddResult : ServerData -> Error; (* Service::Manager::Add<BackboneRouter>(serverData) *)
  ServiceRemoveResult : Error;            (* Service::Manager::Remove<BackboneRouter>() *)
  AddOnMeshPrefixResult : OnMeshPrefixConfig -> Error;
  RemoveOnMeshPrefixResult : Ip6Prefix -> Error;
  GetUint16 : Z                           (* the next draw of Random::NonCrypto *)
}.

(** Constants, build options and helpers that this file uses and that are
    declared elsewhere. *)
Record Platform : Type := mkPlatform {
  kShortAddrInvalid : Z;                  (* Mac::kShortAddrInvalid *)
  kMinMlrTimeout : Z;
  kMaxMlrTimeout : Z;
  referenceDevice : bool;                 (* OPENTHREAD_CONFIG_REFERENCE_DEVICE_ENABLE *)
  PrefixEq : Ip6Prefix -> Ip6Prefix -> bool;   (* Ip6::Prefix::operator== *)
  SetMulticastNetworkPrefix : Ip6Prefix -> Ip6Address -> Ip6Address;
  SetPrefix : Ip6Prefix -> Ip6Address -> Ip6Address
}.

(** ** The monad of member functions *)

Definition M (A : Type) : Type := Local -> A * Local * list Call.

Definition ret {A : Type} (a : A) : M A := fun l => (a, l, []).

Definition bind {A B : Type} (m : M A) (k : A -> M B) : M B :=
  fun l =>
    let '(a, l1, o1) := m l in
    let '(b, l2, o2) := k a l1 in
    (b, l2, o1 ++ o2).

Declare Scope bbr_scope.
Delimit Scope bbr_scope with bbr.
Notation "x <- m ;; k" := (bind m (fun x => k))
  (at level 61, m at next level, right associativity) : bbr_scope.
Notation "m ;; k" := (bind m (fun _ => k))
  (at level 61, right associativity) : bbr_scope.
Open Scope bbr_scope.

Definition gets {A : Type} (f : Local -> A) : M A := fun l => (f l, l, []).
Definition modify (f : Local -> Local) : M unit := fun l => (tt, f l, []).
Definition call (c : Call) : M unit := fun l => (tt, l, [c]).
Definition when (b : bool) (m : M unit) : M unit := if b then m else ret tt.

(** The instance and the calls a computation leaves behind. *)
Definition result {A : Type} (r : A * Local * list Call) : A := fst (fst r).
Definition after {A : Type} (r : A * Local * list Call) : Local := snd (fst r).
Definition calls {A : Type} (r : A * Local * list Call) : list Call := snd r.

(** ** Helpers declared outside this file *)

(** Modelled from the spec: [Random::NonCrypto::GetUint16InRange] lives in
    common/random.hpp, which is missing here.  The spec lists a
    bounded-uint16 generator among the random sources and says that the
    call with the bounds [0] and [jitter + 1] yields a delay "in
    [0, jitterBound]": the lower bound is included, the upper bound is
    not.  [raw] is the underlying 16-bit draw. *)
Definition GetUint16InRange (raw aMin aMax : Z) : Z :=
  aMin + raw mod (aMax - aMin).

(** Modelled from the spec: [Local::IsEnabled] is an inline member of
    bbr_local.hpp, which is missing here.  The spec: enabled-ness is
    "determined by RoleState != Disabled". *)
Definition IsEnabled (l : Local) : bool :=
  negb (State_eqb (mState l) kStateDisabled).

(** ** Member functions *)

Section BackboneRouterLocal.

Variable P : Platform.

(** [Local::LogBackboneRouterService]. *)
Definition LogBackboneRouterService (aAction : string) (aError : Error) : M unit :=
  l <- gets (fun l => l);;
  call (LogInfoService aAction (mSequenceNumber l) (mReregistrationDelay l)
          (mMlrTimeout l) aError).

(** [Local::LogDomainPrefix]. *)
Definition LogDomainPrefix (aAction : string) (aError : Error) : M unit :=
  l <- gets (fun l => l);;
  call (LogInfoDomainPrefix aAction (mPrefix (mDomainPrefixConfig l)) aError).

(** The [switch] of [Local::SequenceNumberIncrease] on the value of
    [mSequenceNumber]; the default case is [mSequenceNumber++] on a
    [uint8_t]. *)
Definition increase (s : Z) : Z :=
  if (s =? 126) || (s =? 127) then 0
  else if (s =? 254) || (s =? 255) then 128
  else wrap8 (s + 1).

(** [Local::SequenceNumberIncrease]. *)
Definition SequenceNumberIncrease : M unit :=
  modify (fun l => set_mSequenceNumber (increase (mSequenceNumber l)) l).

(** [Local::SetState]. *)
Definition SetState (env : Env) (aState : State) : M unit :=
  s <- gets mState;;
  if State_eqb s aState then ret tt
  else
    (when (State_eqb s kStateDisabled)
       (modify (fun l => set_mAllNetworkBackboneRouters
                  (SetMulticastNetworkPrefix P (GetMeshLocalPrefix env)
                     (mAllNetworkBackboneRouters l)) l)));;
    (if State_eqb s kStatePrimary then
       (a <- gets mBackboneRouterPrimaryAloc;;
        call (NetifRemoveUnicastAddress a))
     else if State_eqb aState kStatePrimary then
       (modify (fun l => set_mBackboneRouterPrimaryAloc
                  (SetPrefix P (GetMeshLocalPrefix env)
                     (mBackboneRouterPrimaryAloc l)) l);;
        a <- gets mBackboneRouterPrimaryAloc;;
        call (NetifAddUnicastAddress a))
     else ret tt);;
    modify (set_mState aState);;
    call (NotifierSignal kEventThreadBackboneRouterStateChanged).

(** [Local::AddService].  [error] starts as [kErrorInvalidState]; every
    path ends at the [exit] label, which logs and returns it. *)
Definition AddService (env : Env) (aMode : RegisterMode) : M Error :=
  l <- gets (fun l => l);;
  error <-
    (if negb (State_eqb (mState l) kStateDisabled) && IsAttached env then
       if match aMode with
          | kDecideBasedOnState =>
              negb (HasPrimary env) || (GetServer16 env =? GetRloc16 env)
          | kForceRegistration => true
          end
       then
         (let serverData :=
            mkServerData (mSequenceNumber l) (mReregistrationDelay l)
              (mMlrTimeout l) in
          call (ServiceManagerAdd serverData);;
          if Error_isNone (ServiceAddResult env serverData) then
            (call HandleServerDataUpdated;;
             modify (set_mIsServiceAdded true);;
             ret (ServiceAddResult env serverData))
          else ret (ServiceAddResult env serverData))
       else ret kErrorInvalidState
     else ret kErrorInvalidState);;
  LogBackboneRouterService "Add" error;;
  ret error.

(** [Local::RemoveService]. *)
Definition RemoveService (env : Env) : M unit :=
  call ServiceManagerRemove;;
  (when (Error_isNone (ServiceRemoveResult env))
     (call HandleServerDataUpdated;;
      modify (set_mIsServiceAdded false)));;
  LogBackboneRouterService "Remove" (ServiceRemoveResult env).

(** [Local::RemoveDomainPrefixFromNetworkData]. *)
Definition RemoveDomainPrefixFromNetworkData (env : Env) : M unit :=
  c <- gets mDomainPrefixConfig;;
  if 0 <? mLength (mPrefix c) then
    (call (NetworkDataRemoveOnMeshPrefix (mPrefix c));;
     LogDomainPrefix "Remove" (RemoveOnMeshPrefixResult env (mPrefix c)))
  else LogDomainPrefix "Remove" kErrorNotFound.

(** [Local::AddDomainPrefixToNetworkData]. *)
Definition AddDomainPrefixToNetworkData (env : Env) : M unit :=
  c <- gets mDomainPrefixConfig;;
  if 0 <? mLength (mPrefix c) then
    (call (NetworkDataAddOnMeshPrefix c);;
     LogDomainPrefix "Add" (AddOnMeshPrefixResult env c))
  else LogDomainPrefix "Add" kErrorNotFound.

(** [Local::SetEnabled]. *)
Definition SetEnabled (env : Env) (aEnable : bool) : M unit :=
  l <- gets (fun l => l);;
  if Bool.eqb aEnable (IsEnabled l) then ret tt
  else if aEnable then
    (SetState env kStateSecondary;;
     AddDomainPrefixToNetworkData env;;
     _ <- AddService env kDecideBasedOnState;;
     ret tt)
  else
    (RemoveDomainPrefixFromNetworkData env;;
     RemoveService env;;
     SetState env kStateDisabled).

(** [Local::Reset]. *)
Definition Reset (env : Env) : M unit :=
  s <- gets mState;;
  if State_eqb s kStateDisabled then ret tt
  else
    (RemoveService env;;
     s' <- gets mState;;
     when (State_eqb s' kStatePrimary)
       (SequenceNumberIncrease;;
        call (NotifierSignal kEventThreadBackboneRouterLocalChanged);;
        SetState env kStateSecondary)).

(** [Local::GetConfig]; the holder address is not a field of [Local] and
    is left as the caller passed it. *)
Definition GetConfig (aConfig : Config.t) : M Config.t :=
  l <- gets (fun l => l);;
  ret (Config.mk (Config.mServer16 aConfig) (mReregistrationDelay l)
         (mMlrTimeout l) (mSequenceNumber l)).

(** [Local::SetConfig].  The range check on the MLR timeout is compiled
    in unless the build is a reference device.  The delay is narrower
    than the timeout (the [static_assert]), so doubling it cannot
    overflow and is plain arithmetic. *)
Definition SetConfig (env : Env) (aConfig : Config.t) : M Error :=
  error <-
    (if negb (referenceDevice P) &&
        negb ((kMinMlrTimeout P <=? Config.mMlrTimeout aConfig) &&
              (Config.mMlrTimeout aConfig <=? kMaxMlrTimeout P))
     then ret kErrorInvalidArgs
     else if negb (1 <=? Config.mReregistrationDelay aConfig)
     then ret kErrorInvalidArgs
     else if negb (Config.mReregistrationDelay aConfig * 2
                   <? Config.mMlrTimeout aConfig)
     then ret kErrorInvalidArgs
     else
       (l <- gets (fun l => l);;
        u1 <- (if negb (Config.mReregistrationDelay aConfig
                        =? mReregistrationDelay l)
               then (modify (set_mReregistrationDelay
                               (Config.mReregistrationDelay aConfig));;
                     ret true)
               else ret false);;
        u2 <- (if negb (Config.mMlrTimeout aConfig =? mMlrTimeout l)
               then (modify (set_mMlrTimeout (Config.mMlrTimeout aConfig));;
                     ret true)
               else ret u1);;
        u3 <- (if negb (Config.mSequenceNumber aConfig =? mSequenceNumber l)
               then (modify (set_mSequenceNumber
                               (Config.mSequenceNumber aConfig));;
                     ret true)
               else ret u2);;
        (when u3
           (call (NotifierSignal kEventThreadBackboneRouterLocalChanged);;
            _ <- AddService env kDecideBasedOnState;;
            ret tt));;
        ret kErrorNone));;
  LogBackboneRouterService "Set" error;;
  ret error.

(** [Local::HandleBackboneRouterPrimaryUpdate]; [aState] is unused. *)
Definition HandleBackboneRouterPrimaryUpdate (env : Env) (aConfig : Config.t)
  : M unit :=
  l <- gets (fun l => l);;
  when (IsEnabled l && IsAttached env)
    (if Config.mServer16 aConfig =? kShortAddrInvalid P then
       (modify (set_mRegistrationTimeout 1);;
        (when (negb (IsLeader env))
           (modify (fun l =>
              set_mRegistrationTimeout
                (wrap16 (mRegistrationTimeout l +
                         GetUint16InRange (GetUint16 env) 0
                           (wrap16 (mRegistrationJitter l + 1)))) l)));;
        call TimeTickerRegisterReceiver)
     else if negb (Config.mServer16 aConfig =? GetRloc16 env) then
       Reset env
     else if negb (mIsServiceAdded l) then
       (modify (set_mSequenceNumber (Config.mSequenceNumber aConfig));;
        modify (set_mReregistrationDelay (Config.mReregistrationDelay aConfig));;
        modify (set_mMlrTimeout (Config.mMlrTimeout aConfig));;
        SequenceNumberIncrease;;
        call (NotifierSignal kEventThreadBackboneRouterLocalChanged);;
        _ <- AddService env kForceRegistration;;
        ret tt)
     else SetState env kStatePrimary).

(** [Local::HandleTimeTick].  A nonzero router-selection jitter jumps to
    the [exit] label, where the receiver is still unregistered when the
    countdown is zero. *)
Definition HandleTimeTick (env : Env) : M unit :=
  (when (GetRouterSelectionJitterTimeout env =? 0)
     (t <- gets mRegistrationTimeout;;
      when (0 <? t)
        (modify (set_mRegistrationTimeout (wrap16 (t - 1)));;
         t' <- gets mRegistrationTimeout;;
         when (t' =? 0)
           (_ <- AddService env kDecideBasedOnState;;
            ret tt))));;
  t <- gets mRegistrationTimeout;;
  when (t =? 0) (call TimeTickerUnregisterReceiver).

(** [Local::GetDomainPrefix]: the error and, on success, the copy. *)
Definition GetDomainPrefix : M (Error * option OnMeshPrefixConfig) :=
  c <- gets mDomainPrefixConfig;;
  if 0 <? mLength (mPrefix c) then ret (kErrorNone, Some c)
  else ret (kErrorNotFound, None).

(** [Local::RemoveDomainPrefix]. *)
Definition RemoveDomainPrefix (env : Env) (aPrefix : Ip6Prefix) : M Error :=
  l <- gets (fun l => l);;
  if negb (0 <? mLength aPrefix) then ret kErrorInvalidArgs
  else if negb (PrefixEq P (mPrefix (mDomainPrefixConfig l)) aPrefix)
  then ret kErrorNotFound
  else
    ((when (IsEnabled l) (RemoveDomainPrefixFromNetworkData env));;
     modify (fun l =>
       set_mDomainPrefixConfig
         (mkOnMeshPrefixConfig (SetLength 0 (mPrefix (mDomainPrefixConfig l)))
            (mRouteMetadata (mDomainPrefixConfig l))) l);;
     ret kErrorNone).

End BackboneRouterLocal.

(** ** The constructor and the remaining member functions *)

(** The defaults of bbr_local.hpp that the constructor reads. *)
Record Defaults : Type := mkDefaults {
  kDefaultMlrTimeout : Z;
  kDefaultRegistrationDelay : Z;
  kDefaultRegistrationJitter : Z
}.

(** [mFields.m8[i] = v] on the sixteen bytes of an address. *)
Definition setByte (i : nat) (v : Z) (a : Ip6Address) : Ip6Address :=
  firstn i a ++ v :: skipn (S i) a.

(** [Local::Local].  [aRandom] is the byte drawn by
    [Random::NonCrypto::GetUint8]; [aStorage] is the Domain Prefix member
    before its length is set to zero; [aAloc] is the Primary ALOC as
    [InitAsThreadOriginRealmLocalScope] and [SetToLocator] leave it;
    [aCleared] is an address after [Clear]. *)
Definition Local_new (D : Defaults) (aRandom : Z) (aStorage : OnMeshPrefixConfig)
    (aAloc aCleared : Ip6Address) : Local :=
  mkLocal kStateDisabled (kDefaultMlrTimeout D) (kDefaultRegistrationDelay D) 0
    (aRandom mod 127) (kDefaultRegistrationJitter D) false
    (mkOnMeshPrefixConfig (SetLength 0 (mPrefix aStorage)) (mRouteMetadata aStorage))
    aAloc
    (setByte 15 3 (setByte 1 50 (setByte 0 255 aCleared)))
    (setByte 15 3 (setByte 1 50 (setByte 0 255 aCleared))).

Definition set_mAllDomainBackboneRouters (v : Ip6Address) (l : Local) : Local :=
  mkLocal (mState l) (mMlrTimeout l) (mReregistrationDelay l)
    (mRegistrationTimeout l) (mSequenceNumber l) (mRegistrationJitter l)
    (mIsServiceAdded l) (mDomainPrefixConfig l) (mBackboneRouterPrimaryAloc l)
    (mAllNetworkBackboneRouters l) v.

(** [Local::SetDomainPrefix].  [aIsValid] is what
    [OnMeshPrefixConfig::IsValid] answers for the instance at hand. *)
Definition SetDomainPrefix (aIsValid : OnMeshPrefixConfig -> bool) (env : Env)
    (aConfig : OnMeshPrefixConfig) : M Error :=
  if negb (aIsValid aConfig) then ret kErrorInvalidArgs
  else
    ((l <- gets (fun l => l);;
      when (IsEnabled l) (RemoveDomainPrefixFromNetworkData env));;
     modify (set_mDomainPrefixConfig aConfig);;
     LogDomainPrefix "Set" kErrorNone;;
     (l <- gets (fun l => l);;
      when (IsEnabled l) (AddDomainPrefixToNetworkData env));;
     ret kErrorNone).

(** [DomainPrefixEvent]: the three values this file names, and the one
    left to the [default:] case of [HandleDomainPrefixUpdate]. *)
Inductive DomainPrefixEvent : Type :=
| kDomainPrefixAdded
| kDomainPrefixRemoved
| kDomainPrefixRefreshed
| kDomainPrefixUnchanged.

(** The event codes handed to the Domain Prefix callback. *)
Inductive otBackboneRouterDomainPrefixEvent : Type :=
| OT_BACKBONE_ROUTER_DOMAIN_PREFIX_ADDED
| OT_BACKBONE_ROUTER_DOMAIN_PREFIX_REMOVED
| OT_BACKBONE_ROUTER_DOMAIN_PREFIX_CHANGED.

(** The calls of the two functions that also talk to the backbone TMF
    agent and to the Domain Prefix callback. *)
Inductive BackboneCall : Type :=
| Plain (c : Call)
| UnsubscribeMulticast (a : Ip6Address)
| SubscribeMulticast (a : Ip6Address)
| DomainPrefixCallbackInvoke (e : otBackboneRouterDomainPrefixEvent)
    (aDomainPrefix : option Ip6Prefix).

(** [Local::ApplyMeshLocalPrefix].  [aIsPrimary] is the inline
    [Local::IsPrimary] of bbr_local.hpp. *)
Definition ApplyMeshLocalPrefix (P : Platform) (aIsPrimary : Local -> bool)
    (env : Env) (l : Local) : Local * list BackboneCall :=
  if negb (IsEnabled l) then (l, [])
  else
    let l1 :=
      set_mAllNetworkBackboneRouters
        (SetMulticastNetworkPrefix P (GetMeshLocalPrefix env)
           (mAllNetworkBackboneRouters l)) l in
    let o1 :=
      [UnsubscribeMulticast (mAllNetworkBackboneRouters l);
       SubscribeMulticast (mAllNetworkBackboneRouters l1)] in
    if aIsPrimary l1 then
      let l2 :=
        set_mBackboneRouterPrimaryAloc
          (SetPrefix P (GetMeshLocalPrefix env) (mBackboneRouterPrimaryAloc l1))
          l1 in
      (l2,
       o1 ++
       [Plain (NetifRemoveUnicastAddress (mBackboneRouterPrimaryAloc l1));
        Plain (NetifAddUnicastAddress (mBackboneRouterPrimaryAloc l2))])
    else (l1, o1).

(** [Local::HandleDomainPrefixUpdate].  [aCallbackIsSet] is
    [mDomainPrefixCallback.IsSet()]; [aLeaderPrefix] is the pointer
    [Get<Leader>().GetDomainPrefix()], [None] for the null pointer.  The
    Added and Refreshed events dereference that pointer: with a null
    pointer the function has no defined result, which is [None] here. *)
Definition HandleDomainPrefixUpdate (P : Platform) (aCallbackIsSet : bool)
    (aLeaderPrefix : option Ip6Prefix) (aEvent : DomainPrefixEvent) (l : Local)
  : option (Local * list BackboneCall) :=
  if negb (IsEnabled l) then Some (l, [])
  else
    let o1 :=
      match aEvent with
      | kDomainPrefixRemoved | kDomainPrefixRefreshed =>
          [UnsubscribeMulticast (mAllDomainBackboneRouters l)]
      | _ => []
      end in
    match
      match aEvent with
      | kDomainPrefixAdded | kDomainPrefixRefreshed =>
          match aLeaderPrefix with
          | Some p =>
              let a := SetMulticastNetworkPrefix P p (mAllDomainBackboneRouters l) in
              Some (set_mAllDomainBackboneRouters a l, [SubscribeMulticast a])
          | None => None
          end
      | _ => Some (l, [])
      end
    with
    | None => None
    | Some (l1, o2) =>
        let o3 :=
          if aCallbackIsSet then
            match aEvent with
            | kDomainPrefixAdded =>
                [DomainPrefixCallbackInvoke
                   OT_BACKBONE_ROUTER_DOMAIN_PREFIX_ADDED aLeaderPrefix]
            | kDomainPrefixRemoved =>
                [DomainPrefixCallbackInvoke
                   OT_BACKBONE_ROUTER_DOMAIN_PREFIX_REMOVED aLeaderPrefix]
            | kDomainPrefixRefreshed =>
                [DomainPrefixCallbackInvoke
                   OT_BACKBONE_ROUTER_DOMAIN_PREFIX_CHANGED aLeaderPrefix]
            | kDomainPrefixUnchanged => []
            end
          else [] in
        Some (l1, o1 ++ o2 ++ o3)
    end.

(** ** Runs of several calls *)

(** One [HandleTimeTick] per element of [envs], each with the answers the
    collaborators give at that tick. *)
Fixpoint ticks (envs : list Env) : M unit :=
  match envs with
  | [] => ret tt
  | env :: envs' => HandleTimeTick env;; ticks envs'
  end.

(** [increase] applied [n] times. *)
Fixpoint increase_n (n : nat) (s : Z) : Z :=
  match n with
  | O => s
  | S n' => increase_n n' (increase s)
  end.

(** ** Sample values *)

(** A platform with [Mac::kShortAddrInvalid = 0xfffe], an MLR timeout
    range of [300 .. 2^32-1] seconds, prefixes equal when lengths and bytes
    agree, and address helpers that overwrite the leading bytes. *)
Definition samplePrefixEq (a b : Ip6Prefix) : bool :=
  (mLength a =? mLength b) &&
  (if list_eq_dec Z.eq_dec (mPrefixBytes a) (mPrefixBytes b) then true else false).

Definition sampleSetPrefix (p : Ip6Prefix) (a : Ip6Address) : Ip6Address :=
  mPrefixBytes p ++ skipn (length (mPrefixBytes p)) a.

Definition samplePlatform : Platform :=
  mkPlatform 65534 300 4294967295 false samplePrefixEq sampleSetPrefix sampleSetPrefix.

Definition sampleMeshLocalPrefix : Ip6Prefix :=
  mkIp6Prefix [253; 222; 173; 0; 190; 239; 0; 0] 64.

Definition sampleDomainPrefix : Ip6Prefix :=
  mkIp6Prefix [253; 0; 13; 184; 0; 0; 0; 0] 64.

Definition otherPrefix : Ip6Prefix :=
  mkIp6Prefix [253; 0; 13; 185; 0; 0; 0; 0] 64.

Definition emptyPrefix : Ip6Prefix := mkIp6Prefix [] 0.

(** A node that is not attached: no RLOC16, nothing known of a Primary. *)
Definition detachedEnv : Env :=
  mkEnv false false 65534 sampleMeshLocalPrefix 0 false 65534
    (fun _ => kErrorNone) kErrorNotFound (fun _ => kErrorNone)
    (fun _ => kErrorNone) 4660.

(** An attached router with RLOC16 0x0400; the Leader records no Primary. *)
Definition attachedEnv : Env :=
  mkEnv true false 1024 sampleMeshLocalPrefix 0 false 65534
    (fun _ => kErrorNone) kErrorNotFound (fun _ => kErrorNone)
    (fun _ => kErrorNone) 4660.

(** The same router while the Leader records 0x0800 as the Primary. *)
Definition otherPrimaryEnv : Env :=
  mkEnv true false 1024 sampleMeshLocalPrefix 0 true 2048
    (fun _ => kErrorNone) kErrorNotFound (fun _ => kErrorNone)
    (fun _ => kErrorNone) 4660.

(** The same router while the Leader records this node as the Primary. *)
Definition selfPrimaryEnv : Env :=
  mkEnv true false 1024 sampleMeshLocalPrefix 0 true 1024
    (fun _ => kErrorNone) kErrorNotFound (fun _ => kErrorNone)
    (fun _ => kErrorNone) 4660.

(** The Leader of the partition, attached, no Primary recorded. *)
Definition leaderEnv : Env :=
  mkEnv true true 1024 sampleMeshLocalPrefix 0 false 65534
    (fun _ => kErrorNone) kErrorNotFound (fun _ => kErrorNone)
    (fun _ => kErrorNone) 4660.

(** An attached router that is still waiting out its router-selection
    jitter. *)
Definition jitterEnv : Env :=
  mkEnv true false 1024 sampleMeshLocalPrefix 7 false 65534
    (fun _ => kErrorNone) kErrorNotFound (fun _ => kErrorNone)
    (fun _ => kErrorNone) 4660.

(** A freshly constructed instance that was given a Domain Prefix. *)
Definition sampleDisabled : Local :=
  mkLocal kStateDisabled 3600 5 0 42 5 false
    (mkOnMeshPrefixConfig sampleDomainPrefix 1)
    [253; 0; 0; 0; 0; 0; 0; 0; 0; 0; 0; 255; 254; 0; 252; 56]
    [255; 50; 0; 0; 0; 0; 0; 0; 0; 0; 0; 0; 0; 0; 0; 3]
    [255; 50; 0; 0; 0; 0; 0; 0; 0; 0; 0; 0; 0; 0; 0; 3].

Definition sampleSecondary : Local := set_mState kStateSecondary sampleDisabled.

Definition samplePrimary : Local :=
  set_mIsServiceAdded true (set_mState kStatePrimary sampleDisabled).

(** A node that has just restarted: its RLOC16 0x0400 is restored from
    settings, it is not attached yet, and the network data it kept still
    records it as the Primary. *)
Definition restoringEnv : Env :=
  mkEnv false false 1024 sampleMeshLocalPrefix 0 true 1024
    (fun _ => kErrorNone) kErrorNotFound (fun _ => kErrorNone)
    (fun _ => kErrorNone) 4660.

(** ** Properties named in the statements *)

(** The outcome of a restore from the network: the sequence number is the
    reported one increased once, the delay and the timeout are the
    reported ones, the local change is signalled, the service record with
    these values is handed to the service manager, and neither the role
    state nor the state-changed signal is touched. *)
Definition restored_from_network (aConfig : Config.t) (l : Local)
    (r : unit * Local * list Call) : Prop :=
  mSequenceNumber (after r) = increase (Config.mSequenceNumber aConfig) /\
  mReregistrationDelay (after r) = Config.mReregistrationDelay aConfig /\
  mMlrTimeout (after r) = Config.mMlrTimeout aConfig /\
  In (NotifierSignal kEventThreadBackboneRouterLocalChanged) (calls r) /\
  In (ServiceManagerAdd
        (mkServerData (increase (Config.mSequenceNumber aConfig))
           (Config.mReregistrationDelay aConfig) (Config.mMlrTimeout aConfig)))
     (calls r) /\
  mState (after r) = mState l /\
  ~ In (NotifierSignal kEventThreadBackboneRouterStateChanged) (calls r).

(** Every run of [AddService] ends at its [exit] label with one "Add" log
    line, whether or not the record reached the service manager; counting
    these lines counts the registration attempts. *)
Definition is_add_attempt (c : Call) : bool :=
  match c with
  | LogInfoService aAction _ _ _ _ => String.eqb aAction "Add"
  | _ => false
  end.

Definition registration_attempts (cs : list Call) : nat :=
  List.length (filter is_add_attempt cs).

(** The calls that take the instance off the time ticker. *)
Definition is_unregister (c : Call) : bool :=
  match c with
  | TimeTickerUnregisterReceiver => true
  | _ => false
  end.

Definition unregistrations (cs : list Call) : nat :=
  List.length (filter is_unregister cs).

(** A Primary instance has its service published. *)
Definition primary_is_published (l : Local) : Prop :=
  mState l = kStatePrimary -> mIsServiceAdded l = true.

(** ** Reachable instances *)

(** One call of a member function of this file, with any answers of the
    collaborators.  The sequence number of a [Config] is a [uint8_t].
    [RemoveService] and [SetState] run only inside the other functions
    and are not steps of their own: [Reset] and [SetEnabled] follow a
    withdrawal by leaving the Primary role, and the Primary update calls
    [SetState] only after it has tested the published flag. *)
Inductive step (P : Platform) : Local -> Local -> Prop :=
| step_SetEnabled (env : Env) (b : bool) (l : Local) :
    step P l (after (SetEnabled P env b l))
| step_Reset (env : Env) (l : Local) :
    step P l (after (Reset P env l))
| step_SetConfig (env : Env) (c : Config.t) (l : Local) :
    0 <= Config.mSequenceNumber c <= 255 ->
    step P l (after (SetConfig P env c l))
| step_PrimaryUpdate (env : Env) (c : Config.t) (l : Local) :
    0 <= Config.mSequenceNumber c <= 255 ->
    step P l (after (HandleBackboneRouterPrimaryUpdate P env c l))
| step_TimeTick (env : Env) (l : Local) :
    step P l (after (HandleTimeTick env l))
| step_RemoveDomainPrefix (env : Env) (p : Ip6Prefix) (l : Local) :
    step P l (after (RemoveDomainPrefix P env p l))
| step_SetDomainPrefix (v : OnMeshPrefixConfig -> bool) (env : Env)
    (c : OnMeshPrefixConfig) (l : Local) :
    step P l (after (SetDomainPrefix v env c l))
| step_ApplyMeshLocalPrefix (isPrimary : Local -> bool) (env : Env) (l : Local) :
    step P l (fst (ApplyMeshLocalPrefix P isPrimary env l))
| step_DomainPrefixUpdate (cb : bool) (lp : option Ip6Prefix)
    (ev : DomainPrefixEvent) (l l' : Local) (o : list BackboneCall) :
    HandleDomainPrefixUpdate P cb lp ev l = Some (l', o) ->
    step P l l'
| step_AddService (env : Env) (m : RegisterMode) (l : Local) :
    step P l (after (AddService env m l))
| step_SequenceNumberIncrease (l : Local) :
    step P l (after (SequenceNumberIncrease l)).

(** The instances that the constructor and the member functions produce. *)
Inductive reachable (P : Platform) : Local -> Prop :=
| reachable_new (D : Defaults) (aRandom : Z) (aStorage : OnMeshPrefixConfig)
    (aAloc aCleared : Ip6Address) :
    reachable P (Local_new D aRandom aStorage aAloc aCleared)
| reachable_step (l l' : Local) :
    reachable P l -> step P l l' -> reachable P l'.

(** The configuration as the service record carries it. *)
Definition stored_config (l : Local) : Z * Z * Z :=
  (mSequenceNumber l, mReregistrationDelay l, mMlrTimeout l).

(** More sample values. *)
Definition sampleDefaults : Defaults := mkDefaults 3600 5 5.

Definition sampleNew : Local :=
  Local_new sampleDefaults 200 (mkOnMeshPrefixConfig sampleDomainPrefix 1)
    [253; 0; 0; 0; 0; 0; 0; 0; 0; 0; 0; 255; 254; 0; 252; 56]
    [0; 0; 0; 0; 0; 0; 0; 0; 0; 0; 0; 0; 0; 0; 0; 0].

Definition sampleIsPrimary (l : Local) : bool := State_eqb (mState l) kStatePrimary.

Definition sampleIsValid (c : OnMeshPrefixConfig) : bool :=
  (0 <? mLength (mPrefix c)) && (mLength (mPrefix c) <=? 64).

(** A service manager that has no room for the record. *)
Definition noBufsEnv : Env :=
  mkEnv true false 1024 sampleMeshLocalPrefix 0 false 65534
    (fun _ => kErrorNoBufs) kErrorNotFound (fun _ => kErrorNone)
    (fun _ => kErrorNone) 4660.

(** A service manager that holds a record to remove. *)
Definition removableEnv : Env :=
  mkEnv true false 1024 sampleMeshLocalPrefix 0 true 1024
    (fun _ => kErrorNone) kErrorNone (fun _ => kErrorNone)
    (fun _ => kErrorNone) 4660.


(** ** Proof support *)

(** Arithmetic on symbolic integers is left to [lia]; [simpl] keeps it
    folded. *)
#[local] Arguments Z.add : simpl never.
#[local] Arguments Z.sub : simpl never.
#[local] Arguments Z.mul : simpl never.
#[local] Arguments Z.modulo : simpl never.

Ltac unfold_members :=
  unfold HandleTimeTick, HandleBackboneRouterPrimaryUpdate, SetConfig, GetConfig,
    Reset, SetEnabled, RemoveDomainPrefix, GetDomainPrefix,
    AddDomainPrefixToNetworkData, RemoveDomainPrefixFromNetworkData,
    RemoveService, AddService, SetState, SequenceNumberIncrease,
    LogDomainPrefix, LogBackboneRouterService, IsEnabled,
    when, bind, ret, gets, modify, call, result, after, calls,
    set_mState, set_mMlrTimeout, set_mReregistrationDelay,
    set_mRegistrationTimeout, set_mSequenceNumber, set_mIsServiceAdded,
    set_mDomainPrefixConfig, set_mBackboneRouterPrimaryAloc,
    set_mAllNetworkBackboneRouters.

Ltac break_if :=
  match goal with
  | |- context [if ?c then _ else _] => destruct c eqn:?
  end.

(** Run a member function symbolically: unfold it, then split on every
    test that is left, simplifying after each split. *)
Ltac run := unfold_members; simpl; repeat (break_if; simpl).

Lemma increase_range (s : Z) : 0 <= s <= 255 -> 0 <= increase s <= 255.
Proof.
  intros Hs. unfold increase, wrap8.
  destruct (s =? 126) eqn:E1; simpl; [lia|].
  destruct (s =? 127) eqn:E2; simpl; [lia|].
  destruct (s =? 254) eqn:E3; simpl; [lia|].
  destruct (s =? 255) eqn:E4; simpl; [lia|].
  apply Z.eqb_neq in E4. rewrite Z.mod_small; lia.
Qed.

(** ** C1: the banded sequence number *)

(** C1.  For every 8-bit sequence number [s] held by the instance,
    [SequenceNumberIncrease] touches the sequence number only, turns 126
    and 127 into 0, turns 254 and 255 into 128, and turns every other
    value (0..125 and 128..253) into [s + 1]; the result agrees with the
    plain increment modulo 256 exactly when [s] is none of 126, 127, 254,
    255, so the operation is not the modulo-256 increment. *)
Theorem SequenceNumberIncrease_bands (l : Local) :
  0 <= mSequenceNumber l <= 255 ->
  let s := mSequenceNumber l in
  let s' := mSequenceNumber (after (SequenceNumberIncrease l)) in
  SequenceNumberIncrease l = (tt, set_mSequenceNumber s' l, []) /\
  (s = 126 \/ s = 127 -> s' = 0) /\
  (s = 254 \/ s = 255 -> s' = 128) /\
  (0 <= s <= 125 \/ 128 <= s <= 253 -> s' = s + 1) /\
  (s' = (s + 1) mod 256 <-> ~ (s = 126 \/ s = 127 \/ s = 254 \/ s = 255)).
Proof.
  intros Hs s s'. subst s s'. unfold_members. simpl.
  unfold increase, wrap8.
  destruct (mSequenceNumber l =? 126) eqn:E1; simpl.
  { apply Z.eqb_eq in E1. rewrite E1. repeat split; try lia; intros; try lia.
    exfalso; discriminate. }
  destruct (mSequenceNumber l =? 127) eqn:E2; simpl.
  { apply Z.eqb_eq in E2. rewrite E2. repeat split; try lia; intros; try lia.
    exfalso; discriminate. }
  destruct (mSequenceNumber l =? 254) eqn:E3; simpl.
  { apply Z.eqb_eq in E3. rewrite E3. repeat split; try lia; intros; try lia.
    exfalso; discriminate. }
  destruct (mSequenceNumber l =? 255) eqn:E4; simpl.
  { apply Z.eqb_eq in E4. rewrite E4. repeat split; try lia; intros; try lia.
    exfalso; discriminate. }
  apply Z.eqb_neq in E1, E2, E3, E4.
  rewrite Z.mod_small by lia.
  repeat split; intros; lia.
Qed.

Lemma SequenceNumberIncrease_bands_witness :
  0 <= mSequenceNumber (set_mSequenceNumber 127 sampleSecondary) <= 255 /\
  mSequenceNumber
    (after (SequenceNumberIncrease (set_mSequenceNumber 127 sampleSecondary))) = 0 /\
  mSequenceNumber
    (after (SequenceNumberIncrease (set_mSequenceNumber 255 sampleSecondary))) = 128.
Proof.
  split; [simpl; lia|]. split.
  - destruct (SequenceNumberIncrease_bands (set_mSequenceNumber 127 sampleSecondary))
      as (_ & H & _); [simpl; lia|].
    apply H. right. reflexivity.
  - destruct (SequenceNumberIncrease_bands (set_mSequenceNumber 255 sampleSecondary))
      as (_ & _ & H & _); [simpl; lia|].
    apply H. right. reflexivity.
Defined.

(** ** C2: a rejected configuration changes nothing *)

(** C2.  For every configuration [c] with a reregistration delay below 1,
    or with twice the delay not below the MLR timeout, [SetConfig c]
    returns [kErrorInvalidArgs] and leaves the whole instance, hence the
    stored sequence number, delay and timeout read back by [GetConfig],
    as it was; the only call made is the log line of the [exit] label. *)
Theorem SetConfig_rejects_invalid (P : Platform) (env : Env) (c : Config.t) (l : Local) :
  Config.mReregistrationDelay c < 1 \/
  2 * Config.mReregistrationDelay c >= Config.mMlrTimeout c ->
  SetConfig P env c l =
    (kErrorInvalidArgs, l,
     [LogInfoService "Set" (mSequenceNumber l) (mReregistrationDelay l)
        (mMlrTimeout l) kErrorInvalidArgs]) /\
  result (SetConfig P env c l) = kErrorInvalidArgs /\
  mSequenceNumber (after (SetConfig P env c l)) = mSequenceNumber l /\
  mReregistrationDelay (after (SetConfig P env c l)) = mReregistrationDelay l /\
  mMlrTimeout (after (SetConfig P env c l)) = mMlrTimeout l /\
  (forall c0, result (GetConfig c0 (after (SetConfig P env c l))) =
              result (GetConfig c0 l)).
Proof.
  intros H.
  assert (E : SetConfig P env c l =
    (kErrorInvalidArgs, l,
     [LogInfoService "Set" (mSequenceNumber l) (mReregistrationDelay l)
        (mMlrTimeout l) kErrorInvalidArgs])).
  { unfold_members.
    destruct (negb (referenceDevice P) &&
              negb ((kMinMlrTimeout P <=? Config.mMlrTimeout c) &&
                    (Config.mMlrTimeout c <=? kMaxMlrTimeout P))); [reflexivity|].
    destruct (Z.leb_spec 1 (Config.mReregistrationDelay c)); simpl; [|reflexivity].
    destruct (Z.ltb_spec (Config.mReregistrationDelay c * 2) (Config.mMlrTimeout c));
      simpl; [lia|reflexivity]. }
  rewrite E. repeat split; reflexivity.
Qed.

Lemma SetConfig_rejects_invalid_witness :
  (Config.mReregistrationDelay (Config.mk 0 200 400 7) < 1 \/
   2 * Config.mReregistrationDelay (Config.mk 0 200 400 7)
     >= Config.mMlrTimeout (Config.mk 0 200 400 7)) /\
  result (SetConfig samplePlatform attachedEnv (Config.mk 0 200 400 7) sampleSecondary)
    = kErrorInvalidArgs /\
  after (SetConfig samplePlatform attachedEnv (Config.mk 0 200 400 7) sampleSecondary)
    = sampleSecondary.
Proof.
  assert (H : Config.mReregistrationDelay (Config.mk 0 200 400 7) < 1 \/
              2 * Config.mReregistrationDelay (Config.mk 0 200 400 7)
                >= Config.mMlrTimeout (Config.mk 0 200 400 7)) by (right; simpl; lia).
  split; [exact H|].
  destruct (SetConfig_rejects_invalid samplePlatform attachedEnv
              (Config.mk 0 200 400 7) sampleSecondary H) as (E & _).
  rewrite E. split; reflexivity.
Defined.

(** ** Registration and withdrawal *)

(** [AddService] changes at most the published flag. *)
Lemma AddService_after (env : Env) (m : RegisterMode) (l : Local) :
  after (AddService env m l) = l \/
  after (AddService env m l) = set_mIsServiceAdded true l.
Proof.
  run; auto.
Qed.

Lemma AddService_mState (env : Env) (m : RegisterMode) (l : Local) :
  mState (after (AddService env m l)) = mState l.
Proof.
  destruct (AddService_after env m l) as [E | E]; rewrite E; reflexivity.
Qed.

(** [AddService] never signals the [Notifier]. *)
Lemma AddService_no_signal (env : Env) (m : RegisterMode) (l : Local) (e : Event) :
  ~ In (NotifierSignal e) (calls (AddService env m l)).
Proof.
  run; intuition discriminate.
Qed.

(** What [RemoveService] does, spelled out. *)
Lemma RemoveService_eq (env : Env) (l : Local) :
  RemoveService env l =
    if Error_isNone (ServiceRemoveResult env) then
      (tt, set_mIsServiceAdded false l,
       [ServiceManagerRemove; HandleServerDataUpdated;
        LogInfoService "Remove" (mSequenceNumber l) (mReregistrationDelay l)
          (mMlrTimeout l) kErrorNone])
    else
      (tt, l,
       [ServiceManagerRemove;
        LogInfoService "Remove" (mSequenceNumber l) (mReregistrationDelay l)
          (mMlrTimeout l) (ServiceRemoveResult env)]).
Proof.
  unfold_members. destruct (ServiceRemoveResult env); reflexivity.
Qed.

(** ** C4: Reset *)

(** C4.  [Reset] on a Primary instance withdraws the service, applies
    [increase] to the sequence number once, signals the local change,
    drops the Primary ALOC and leaves the instance Secondary; on a
    Secondary instance it is the service withdrawal alone, with the
    sequence number and the role state untouched; on a Disabled instance
    it changes nothing and calls nothing. *)
Theorem Reset_by_state (P : Platform) (env : Env) (l : Local) :
  (mState l = kStatePrimary ->
     after (Reset P env l) =
       set_mState kStateSecondary
         (set_mSequenceNumber (increase (mSequenceNumber l))
            (after (RemoveService env l))) /\
     calls (Reset P env l) =
       calls (RemoveService env l) ++
       [NotifierSignal kEventThreadBackboneRouterLocalChanged;
        NetifRemoveUnicastAddress (mBackboneRouterPrimaryAloc l);
        NotifierSignal kEventThreadBackboneRouterStateChanged] /\
     mSequenceNumber (after (Reset P env l)) = increase (mSequenceNumber l) /\
     mState (after (Reset P env l)) = kStateSecondary) /\
  (mState l = kStateSecondary ->
     Reset P env l = RemoveService env l /\
     hd_error (calls (Reset P env l)) = Some ServiceManagerRemove /\
     mSequenceNumber (after (Reset P env l)) = mSequenceNumber l /\
     mState (after (Reset P env l)) = kStateSecondary) /\
  (mState l = kStateDisabled -> Reset P env l = (tt, l, [])).
Proof.
  split; [|split]; intros Hs; destruct l; simpl in Hs; subst;
    unfold_members; simpl;
    try destruct (Error_isNone (ServiceRemoveResult env));
    simpl; repeat split; reflexivity.
Qed.

Lemma Reset_by_state_witness :
  mState samplePrimary = kStatePrimary /\
  mState sampleSecondary = kStateSecondary /\
  mState sampleDisabled = kStateDisabled /\
  mSequenceNumber (after (Reset samplePlatform attachedEnv samplePrimary)) = 43 /\
  mState (after (Reset samplePlatform attachedEnv samplePrimary)) = kStateSecondary /\
  mSequenceNumber (after (Reset samplePlatform attachedEnv sampleSecondary)) = 42 /\
  mState (after (Reset samplePlatform attachedEnv sampleSecondary)) = kStateSecondary /\
  Reset samplePlatform attachedEnv sampleDisabled = (tt, sampleDisabled, []).
Proof.
  destruct (Reset_by_state samplePlatform attachedEnv samplePrimary)
    as ((_ & _ & Hseq & Hst) & _ & _); [reflexivity|].
  destruct (Reset_by_state samplePlatform attachedEnv sampleSecondary)
    as (_ & (_ & _ & Hseq2 & Hst2) & _); [reflexivity|].
  destruct (Reset_by_state samplePlatform attachedEnv sampleDisabled)
    as (_ & _ & Hd).
  split; [reflexivity|]. split; [reflexivity|]. split; [reflexivity|].
  split; [rewrite Hseq; reflexivity|].
  split; [exact Hst|]. split; [exact Hseq2|]. split; [exact Hst2|].
  apply Hd. reflexivity.
Defined.

(** ** C5: enabling *)

(** C5.  [SetEnabled true] on a Disabled instance signals the state change
    and makes the instance Secondary, then hands the stored Domain Prefix
    to the network-data collaborator when its length is positive (and only
    logs otherwise), then makes one registration attempt in the
    decide-based-on-state mode: when the node is attached and the Leader
    records no Primary, or records this node, the service record with the
    instance's sequence number, delay and timeout goes to the service
    manager, and the published flag is set when the manager accepts it;
    otherwise nothing goes to the service manager and the attempt ends
    with [kErrorInvalidState].  A further [SetEnabled true], whatever the
    environment answers, returns the instance unchanged and makes no
    call. *)
Theorem SetEnabled_true_from_disabled (P : Platform) (env : Env) (l : Local) :
  mState l = kStateDisabled ->
  let l1 :=
    set_mState kStateSecondary
      (set_mAllNetworkBackboneRouters
         (SetMulticastNetworkPrefix P (GetMeshLocalPrefix env)
            (mAllNetworkBackboneRouters l)) l) in
  let c := mDomainPrefixConfig l in
  let sd :=
    mkServerData (mSequenceNumber l) (mReregistrationDelay l) (mMlrTimeout l) in
  let go :=
    IsAttached env &&
    (negb (HasPrimary env) || (GetServer16 env =? GetRloc16 env)) in
  let r := SetEnabled P env true l in
  mState (after r) = kStateSecondary /\
  after r = after (AddService env kDecideBasedOnState l1) /\
  calls r =
    [NotifierSignal kEventThreadBackboneRouterStateChanged] ++
    (if 0 <? mLength (mPrefix c)
     then [NetworkDataAddOnMeshPrefix c;
           LogInfoDomainPrefix "Add" (mPrefix c) (AddOnMeshPrefixResult env c)]
     else [LogInfoDomainPrefix "Add" (mPrefix c) kErrorNotFound]) ++
    calls (AddService env kDecideBasedOnState l1) /\
  (forall env' : Env, SetEnabled P env' true (after r) = (tt, after r, [])) /\
  after r =
    (if go && Error_isNone (ServiceAddResult env sd)
     then set_mIsServiceAdded true l1 else l1) /\
  calls r =
    [NotifierSignal kEventThreadBackboneRouterStateChanged] ++
    (if 0 <? mLength (mPrefix c)
     then [NetworkDataAddOnMeshPrefix c;
           LogInfoDomainPrefix "Add" (mPrefix c) (AddOnMeshPrefixResult env c)]
     else [LogInfoDomainPrefix "Add" (mPrefix c) kErrorNotFound]) ++
    (if go
     then ServiceManagerAdd sd ::
          (if Error_isNone (ServiceAddResult env sd)
           then [HandleServerDataUpdated] else []) ++
          [LogInfoService "Add" (mSequenceNumber l) (mReregistrationDelay l)
             (mMlrTimeout l) (ServiceAddResult env sd)]
     else [LogInfoService "Add" (mSequenceNumber l) (mReregistrationDelay l)
             (mMlrTimeout l) kErrorInvalidState]) /\
  registration_attempts (calls r) = 1%nat.
Proof.
  intros Hs l1 c sd go r.
  assert (Ha : after r = after (AddService env kDecideBasedOnState l1)).
  { subst r l1 c. destruct l; simpl in Hs; subst.
    run; reflexivity. }
  assert (Hm : mState (after r) = kStateSecondary).
  { rewrite Ha, AddService_mState. reflexivity. }
  split; [exact Hm|]. split; [exact Ha|]. split; [|split; [|split; [|split]]].
  - subst r l1 c. destruct l; simpl in Hs; subst.
    run; reflexivity.
  - intros env'. unfold SetEnabled, bind, gets, IsEnabled.
    rewrite Hm. reflexivity.
  - subst r l1 c sd go. destruct l; simpl in Hs; subst.
    run; reflexivity.
  - subst r l1 c sd go. destruct l; simpl in Hs; subst.
    run; reflexivity.
  - subst r l1 c sd go. destruct l; simpl in Hs; subst.
    unfold registration_attempts. run; reflexivity.
Qed.

Lemma SetEnabled_true_from_disabled_witness :
  mState sampleDisabled = kStateDisabled /\
  mState (after (SetEnabled samplePlatform attachedEnv true sampleDisabled))
    = kStateSecondary /\
  SetEnabled samplePlatform attachedEnv true
    (after (SetEnabled samplePlatform attachedEnv true sampleDisabled)) =
    (tt, after (SetEnabled samplePlatform attachedEnv true sampleDisabled), []) /\
  calls (SetEnabled samplePlatform attachedEnv true sampleDisabled) =
    [NotifierSignal kEventThreadBackboneRouterStateChanged;
     NetworkDataAddOnMeshPrefix (mkOnMeshPrefixConfig sampleDomainPrefix 1);
     LogInfoDomainPrefix "Add" sampleDomainPrefix kErrorNone;
     ServiceManagerAdd (mkServerData 42 5 3600);
     HandleServerDataUpdated;
     LogInfoService "Add" 42 5 3600 kErrorNone] /\
  calls (SetEnabled samplePlatform otherPrimaryEnv true sampleDisabled) =
    [NotifierSignal kEventThreadBackboneRouterStateChanged;
     NetworkDataAddOnMeshPrefix (mkOnMeshPrefixConfig sampleDomainPrefix 1);
     LogInfoDomainPrefix "Add" sampleDomainPrefix kErrorNone;
     LogInfoService "Add" 42 5 3600 kErrorInvalidState] /\
  registration_attempts
    (calls (SetEnabled samplePlatform attachedEnv true sampleDisabled)) = 1%nat.
Proof.
  destruct (SetEnabled_true_from_disabled samplePlatform attachedEnv sampleDisabled)
    as (Hm & _ & _ & Hagain & _ & Hcalls & Hone); [reflexivity|].
  destruct (SetEnabled_true_from_disabled samplePlatform otherPrimaryEnv
              sampleDisabled) as (_ & _ & _ & _ & _ & Hcalls2 & _); [reflexivity|].
  split; [reflexivity|]. split; [exact Hm|]. split; [exact (Hagain attachedEnv)|].
  split; [rewrite Hcalls; reflexivity|].
  split; [rewrite Hcalls2; reflexivity|]. exact Hone.
Defined.

(** ** C3: restoring the service from the network *)

(** C3, as stated, fails.  The update handler does nothing unless the
    instance is enabled and the node is attached.  After [SetEnabled true]
    on a node that is not attached yet, an update naming this node as the
    holder, with the published flag still false, leaves the instance as it
    was and makes no call; the same holds on a Disabled instance of an
    attached node.  So the reported values are not adopted and no
    registration is attempted. *)
Lemma restore_not_attached_counterexample :
  let aConfig := Config.mk 1024 9 4000 7 in
  let l := after (SetEnabled samplePlatform restoringEnv true sampleDisabled) in
  (Config.mServer16 aConfig = GetRloc16 restoringEnv /\
   mIsServiceAdded l = false /\
   HandleBackboneRouterPrimaryUpdate samplePlatform restoringEnv aConfig l
     = (tt, l, []) /\
   ~ restored_from_network aConfig l
       (HandleBackboneRouterPrimaryUpdate samplePlatform restoringEnv aConfig l)) /\
  (Config.mServer16 aConfig = GetRloc16 selfPrimaryEnv /\
   mIsServiceAdded sampleDisabled = false /\
   HandleBackboneRouterPrimaryUpdate samplePlatform selfPrimaryEnv aConfig
     sampleDisabled = (tt, sampleDisabled, []) /\
   ~ restored_from_network aConfig sampleDisabled
       (HandleBackboneRouterPrimaryUpdate samplePlatform selfPrimaryEnv aConfig
          sampleDisabled)).
Proof.
  cbv zeta. repeat split; try reflexivity.
  - intros (H & _). vm_compute in H. discriminate.
  - intros (H & _). vm_compute in H. discriminate.
Qed.

(** C3, amended.  On an enabled instance of an attached node, an update
    that names a valid holder equal to this node's RLOC16 while the
    published flag is false adopts the reported sequence number, delay and
    timeout, applies [increase] to the sequence number once, signals the
    local change and hands the service record to the service manager
    whatever the Leader records as the Primary (force mode); the flag
    becomes true when the manager accepts the record.  The role state is
    unchanged and no state-changed signal is made. *)
Theorem HandleBackboneRouterPrimaryUpdate_restore
    (P : Platform) (env : Env) (aConfig : Config.t) (l : Local) :
  IsEnabled l = true ->
  IsAttached env = true ->
  Config.mServer16 aConfig <> kShortAddrInvalid P ->
  Config.mServer16 aConfig = GetRloc16 env ->
  mIsServiceAdded l = false ->
  let l1 :=
    set_mSequenceNumber (increase (Config.mSequenceNumber aConfig))
      (set_mMlrTimeout (Config.mMlrTimeout aConfig)
         (set_mReregistrationDelay (Config.mReregistrationDelay aConfig) l)) in
  let sd :=
    mkServerData (increase (Config.mSequenceNumber aConfig))
      (Config.mReregistrationDelay aConfig) (Config.mMlrTimeout aConfig) in
  let r := HandleBackboneRouterPrimaryUpdate P env aConfig l in
  after r =
    (if Error_isNone (ServiceAddResult env sd)
     then set_mIsServiceAdded true l1 else l1) /\
  calls r =
    [NotifierSignal kEventThreadBackboneRouterLocalChanged;
     ServiceManagerAdd sd] ++
    (if Error_isNone (ServiceAddResult env sd)
     then [HandleServerDataUpdated] else []) ++
    [LogInfoService "Add" (increase (Config.mSequenceNumber aConfig))
       (Config.mReregistrationDelay aConfig) (Config.mMlrTimeout aConfig)
       (ServiceAddResult env sd)] /\
  r = (modify (fun _ => l1);;
       call (NotifierSignal kEventThreadBackboneRouterLocalChanged);;
       _ <- AddService env kForceRegistration;;
       ret tt) l /\
  restored_from_network aConfig l r.
Proof.
  intros He Ha Hv Hself Hf l1 sd r.
  apply Z.eqb_neq in Hv.
  assert (Hs : State_eqb (mState l) kStateDisabled = false).
  { unfold IsEnabled in He. destruct (State_eqb (mState l) kStateDisabled);
      [discriminate|reflexivity]. }
  subst r l1 sd. unfold restored_from_network.
  destruct l; simpl in Hs, Hf; subst.
  unfold HandleBackboneRouterPrimaryUpdate, Reset, AddService, SetState,
    SequenceNumberIncrease, LogBackboneRouterService,
    IsEnabled, when, bind, ret, gets, modify, call, result, after, calls,
    set_mState, set_mMlrTimeout, set_mReregistrationDelay,
    set_mRegistrationTimeout, set_mSequenceNumber, set_mIsServiceAdded.
  simpl. rewrite Hs, Ha, Hv, Hself, Z.eqb_refl. simpl. rewrite Hs. simpl.
  destruct (Error_isNone _); simpl;
    repeat split; try reflexivity; auto; intuition discriminate.
Qed.

Lemma HandleBackboneRouterPrimaryUpdate_restore_witness :
  IsEnabled sampleSecondary = true /\
  IsAttached selfPrimaryEnv = true /\
  Config.mServer16 (Config.mk 1024 9 4000 127) <> kShortAddrInvalid samplePlatform /\
  Config.mServer16 (Config.mk 1024 9 4000 127) = GetRloc16 selfPrimaryEnv /\
  mIsServiceAdded sampleSecondary = false /\
  restored_from_network (Config.mk 1024 9 4000 127) sampleSecondary
    (HandleBackboneRouterPrimaryUpdate samplePlatform selfPrimaryEnv
       (Config.mk 1024 9 4000 127) sampleSecondary).
Proof.
  assert (Hv : Config.mServer16 (Config.mk 1024 9 4000 127)
               <> kShortAddrInvalid samplePlatform) by (simpl; lia).
  split; [reflexivity|]. split; [reflexivity|]. split; [exact Hv|].
  split; [reflexivity|]. split; [reflexivity|].
  apply (HandleBackboneRouterPrimaryUpdate_restore samplePlatform selfPrimaryEnv
           (Config.mk 1024 9 4000 127) sampleSecondary
           eq_refl eq_refl Hv eq_refl eq_refl).
Defined.

(** ** C9: another node holds the role *)

(** C9, as stated, fails.  An instance enabled while the Leader records
    node 0x0800 as the Primary does not register, so its published flag is
    false.  An update naming 0x0800 as the holder still runs [Reset]: the
    service withdrawal is handed to the service manager (and, when the
    manager had a record to remove, the server-data change is notified).
    The update is not a no-op. *)
Lemma other_holder_flag_false_counterexample :
  let aConfig := Config.mk 2048 9 4000 7 in
  let l := after (SetEnabled samplePlatform otherPrimaryEnv true sampleDisabled) in
  IsEnabled l = true /\
  IsAttached otherPrimaryEnv = true /\
  Config.mServer16 aConfig <> kShortAddrInvalid samplePlatform /\
  Config.mServer16 aConfig <> GetRloc16 otherPrimaryEnv /\
  mIsServiceAdded l = false /\
  HandleBackboneRouterPrimaryUpdate samplePlatform otherPrimaryEnv aConfig l
    = Reset samplePlatform otherPrimaryEnv l /\
  calls (HandleBackboneRouterPrimaryUpdate samplePlatform otherPrimaryEnv aConfig l)
    = [ServiceManagerRemove; LogInfoService "Remove" 42 5 3600 kErrorNotFound] /\
  HandleBackboneRouterPrimaryUpdate samplePlatform otherPrimaryEnv aConfig l
    <> (tt, l, []).
Proof.
  cbv zeta. repeat split; try reflexivity.
  - simpl. lia.
  - simpl. lia.
  - intros H. vm_compute in H. discriminate.
Qed.

(** C9, amended.  On an enabled instance of an attached node, an update
    that names a valid holder other than this node's RLOC16 is exactly
    [Reset], whatever the published flag: the service withdrawal is always
    handed to the service manager.  On a Secondary instance the sequence
    number and the role state stay as they were, and with the flag false
    every field of the instance stays as it was; the same holds on any
    instance that satisfies [primary_is_published]. *)
Theorem HandleBackboneRouterPrimaryUpdate_other_holder
    (P : Platform) (env : Env) (aConfig : Config.t) (l : Local) :
  IsEnabled l = true ->
  IsAttached env = true ->
  Config.mServer16 aConfig <> kShortAddrInvalid P ->
  Config.mServer16 aConfig <> GetRloc16 env ->
  let r := HandleBackboneRouterPrimaryUpdate P env aConfig l in
  r = Reset P env l /\
  hd_error (calls r) = Some ServiceManagerRemove /\
  (mState l = kStateSecondary ->
     mSequenceNumber (after r) = mSequenceNumber l /\
     mState (after r) = kStateSecondary /\
     (mIsServiceAdded l = false -> after r = l)) /\
  (primary_is_published l -> mIsServiceAdded l = false -> after r = l).
Proof.
  intros He Ha Hv Ho r.
  apply Z.eqb_neq in Hv, Ho.
  assert (E : r = Reset P env l).
  { subst r. unfold HandleBackboneRouterPrimaryUpdate, bind at 1.
    unfold gets at 1, when. rewrite He, Ha, Hv, Ho. simpl.
    destruct (Reset P env l) as [[[] l'] o]. reflexivity. }
  split; [exact E|]. rewrite E. clear E r.
  unfold IsEnabled in He.
  destruct l; simpl in He |- *.
  unfold primary_is_published.
  destruct mState0; try discriminate; run; repeat split;
    intros; subst; try discriminate; try reflexivity;
    match goal with
    | H : ?x = ?x -> _ |- _ => specialize (H eq_refl); discriminate
    end.
Qed.

Lemma HandleBackboneRouterPrimaryUpdate_other_holder_witness :
  IsEnabled samplePrimary = true /\
  IsAttached otherPrimaryEnv = true /\
  Config.mServer16 (Config.mk 2048 9 4000 7) <> kShortAddrInvalid samplePlatform /\
  Config.mServer16 (Config.mk 2048 9 4000 7) <> GetRloc16 otherPrimaryEnv /\
  HandleBackboneRouterPrimaryUpdate samplePlatform otherPrimaryEnv
    (Config.mk 2048 9 4000 7) samplePrimary
  = Reset samplePlatform otherPrimaryEnv samplePrimary.
Proof.
  assert (Hv : Config.mServer16 (Config.mk 2048 9 4000 7)
               <> kShortAddrInvalid samplePlatform) by (simpl; lia).
  assert (Ho : Config.mServer16 (Config.mk 2048 9 4000 7)
               <> GetRloc16 otherPrimaryEnv) by (simpl; lia).
  split; [reflexivity|]. split; [reflexivity|]. split; [exact Hv|].
  split; [exact Ho|].
  apply (HandleBackboneRouterPrimaryUpdate_other_holder samplePlatform
           otherPrimaryEnv (Config.mk 2048 9 4000 7) samplePrimary
           eq_refl eq_refl Hv Ho).
Defined.

(** ** C6: arming the countdown on a vacancy *)





(** ** C7 and C10: the tick handler *)

(** One run of [AddService] is one registration attempt. *)
Lemma AddService_one_attempt (env : Env) (m : RegisterMode) (l : Local) :
  registration_attempts (calls (AddService env m l)) = 1%nat.
Proof.
  unfold registration_attempts. run; reflexivity.
Qed.

Lemma registration_attempts_app (xs ys : list Call) :
  registration_attempts (xs ++ ys) =
  (registration_attempts xs + registration_attempts ys)%nat.
Proof.
  unfold registration_attempts. rewrite filter_app, length_app. reflexivity.
Qed.

Lemma AddService_no_unregister (env : Env) (m : RegisterMode) (l : Local) :
  unregistrations (calls (AddService env m l)) = 0%nat.
Proof.
  unfold unregistrations. run; reflexivity.
Qed.

Lemma unregistrations_app (xs ys : list Call) :
  unregistrations (xs ++ ys) = (unregistrations xs + unregistrations ys)%nat.
Proof.
  unfold unregistrations. rewrite filter_app, length_app. reflexivity.
Qed.

(** C7.  From a countdown of 3, three ticks during which the
    router-selection jitter is zero: the first leaves the countdown at 2
    and the second at 1, neither making any call; the third brings it to
    0, runs [AddService kDecideBasedOnState] and then unregisters the
    instance from the time ticker, as its last call.  Over the three
    ticks there is one registration attempt and one unregistration. *)
Theorem HandleTimeTick_countdown_from_three (env1 env2 env3 : Env) (l : Local) :
  mRegistrationTimeout l = 3 ->
  GetRouterSelectionJitterTimeout env1 = 0 ->
  GetRouterSelectionJitterTimeout env2 = 0 ->
  GetRouterSelectionJitterTimeout env3 = 0 ->
  let r1 := HandleTimeTick env1 l in
  let r2 := HandleTimeTick env2 (after r1) in
  let r3 := HandleTimeTick env3 (after r2) in
  let l0 := set_mRegistrationTimeout 0 l in
  r1 = (tt, set_mRegistrationTimeout 2 l, []) /\
  r2 = (tt, set_mRegistrationTimeout 1 l, []) /\
  after r3 = after (AddService env3 kDecideBasedOnState l0) /\
  calls r3 =
    calls (AddService env3 kDecideBasedOnState l0) ++
    [TimeTickerUnregisterReceiver] /\
  mRegistrationTimeout (after r3) = 0 /\
  registration_attempts (calls r1 ++ calls r2 ++ calls r3) = 1%nat /\
  unregistrations (calls r1 ++ calls r2 ++ calls r3) = 1%nat.
Proof.
  intros Ht H1 H2 H3 r1 r2 r3 l0.
  assert (E1 : r1 = (tt, set_mRegistrationTimeout 2 l, [])).
  { subst r1. destruct l; simpl in Ht; subst.
    unfold HandleTimeTick, when, bind, gets, modify, ret, call.
    rewrite H1. reflexivity. }
  assert (E2 : r2 = (tt, set_mRegistrationTimeout 1 l, [])).
  { subst r2. rewrite E1. destruct l.
    unfold HandleTimeTick, when, bind, gets, modify, ret, call.
    rewrite H2. reflexivity. }
  assert (E3 : r3 =
    (tt, after (AddService env3 kDecideBasedOnState l0),
     calls (AddService env3 kDecideBasedOnState l0) ++
     [TimeTickerUnregisterReceiver])).
  { subst r3 l0. rewrite E2. destruct l. unfold after at 1. simpl snd. simpl fst.
    unfold HandleTimeTick, when. unfold bind at 1 2. unfold gets at 1. rewrite H3.
    run; reflexivity. }
  assert (Ht0 : mRegistrationTimeout
                  (after (AddService env3 kDecideBasedOnState l0)) = 0).
  { destruct (AddService_after env3 kDecideBasedOnState l0) as [E | E];
      rewrite E; reflexivity. }
  rewrite E1, E2, E3. unfold after at 1, calls at 1. simpl fst. simpl snd.
  repeat split; try assumption.
  - simpl. rewrite registration_attempts_app, AddService_one_attempt.
    reflexivity.
  - simpl. rewrite unregistrations_app, AddService_no_unregister.
    reflexivity.
Qed.

Lemma HandleTimeTick_countdown_from_three_witness :
  mRegistrationTimeout (set_mRegistrationTimeout 3 sampleSecondary) = 3 /\
  GetRouterSelectionJitterTimeout attachedEnv = 0 /\
  HandleTimeTick attachedEnv
    (after (HandleTimeTick attachedEnv
       (after (HandleTimeTick attachedEnv
                 (set_mRegistrationTimeout 3 sampleSecondary))))) =
  (tt, set_mIsServiceAdded true (set_mRegistrationTimeout 0 sampleSecondary),
   [ServiceManagerAdd (mkServerData 42 5 3600); HandleServerDataUpdated;
    LogInfoService "Add" 42 5 3600 kErrorNone; TimeTickerUnregisterReceiver]).
Proof.
  split; [reflexivity|]. split; [reflexivity|].
  destruct (HandleTimeTick_countdown_from_three attachedEnv attachedEnv attachedEnv
              (set_mRegistrationTimeout 3 sampleSecondary)
              eq_refl eq_refl eq_refl eq_refl)
    as (_ & _ & Ha & Hc & _).
  destruct (HandleTimeTick attachedEnv
    (after (HandleTimeTick attachedEnv
       (after (HandleTimeTick attachedEnv
                 (set_mRegistrationTimeout 3 sampleSecondary))))))
    as [[[] l'] o].
  unfold after, calls in Ha, Hc. simpl in Ha, Hc. rewrite Ha, Hc. reflexivity.
Defined.

(** C10.  While the router-selection jitter is nonzero a tick leaves the
    instance, and so the countdown, as it was and runs no registration;
    it makes no call when the countdown is not zero, and exactly the
    unregistration from the time ticker when the countdown is zero. *)
Theorem HandleTimeTick_suppressed (env : Env) (l : Local) :
  GetRouterSelectionJitterTimeout env <> 0 ->
  let r := HandleTimeTick env l in
  after r = l /\
  mRegistrationTimeout (after r) = mRegistrationTimeout l /\
  registration_attempts (calls r) = 0%nat /\
  (mRegistrationTimeout l <> 0 -> calls r = []) /\
  (mRegistrationTimeout l = 0 -> calls r = [TimeTickerUnregisterReceiver]).
Proof.
  intros Hj r. apply Z.eqb_neq in Hj.
  assert (E : r = (tt, l, if mRegistrationTimeout l =? 0
                          then [TimeTickerUnregisterReceiver] else [])).
  { subst r. unfold HandleTimeTick, when, bind, gets, modify, ret, call.
    rewrite Hj. destruct (mRegistrationTimeout l =? 0); reflexivity. }
  rewrite E. unfold after, calls. simpl.
  repeat split.
  - destruct (mRegistrationTimeout l =? 0); reflexivity.
  - intros Hn. apply Z.eqb_neq in Hn. rewrite Hn. reflexivity.
  - intros Hz. rewrite Hz. reflexivity.
Qed.

Lemma HandleTimeTick_suppressed_witness :
  GetRouterSelectionJitterTimeout jitterEnv <> 0 /\
  HandleTimeTick jitterEnv (set_mRegistrationTimeout 3 sampleSecondary) =
    (tt, set_mRegistrationTimeout 3 sampleSecondary, []) /\
  HandleTimeTick jitterEnv sampleSecondary =
    (tt, sampleSecondary, [TimeTickerUnregisterReceiver]).
Proof.
  assert (Hj : GetRouterSelectionJitterTimeout jitterEnv <> 0) by (simpl; lia).
  split; [exact Hj|].
  split.
  - destruct (HandleTimeTick_suppressed jitterEnv
                (set_mRegistrationTimeout 3 sampleSecondary) Hj)
      as (Ha & _ & _ & Hc & _).
    destruct (HandleTimeTick jitterEnv (set_mRegistrationTimeout 3 sampleSecondary))
      as [[[] l'] o].
    unfold after, calls in Ha, Hc. simpl in Ha, Hc.
    rewrite Ha, Hc; [reflexivity | simpl; lia].
  - destruct (HandleTimeTick_suppressed jitterEnv sampleSecondary Hj)
      as (Ha & _ & _ & _ & Hc).
    destruct (HandleTimeTick jitterEnv sampleSecondary) as [[[] l'] o].
    unfold after, calls in Ha, Hc. simpl in Ha, Hc.
    rewrite Ha, Hc; reflexivity.
Defined.

(** ** C8: removing the Domain Prefix *)

(** C8.  [RemoveDomainPrefix p] returns [kErrorInvalidArgs] when the length
    of [p] is zero, and [kErrorNotFound] when the length is positive and
    [p] does not compare equal to the stored prefix; in both cases the
    instance, and so the stored Domain Prefix configuration, stays as it
    was and no call is made. *)
Theorem RemoveDomainPrefix_failures
    (P : Platform) (env : Env) (aPrefix : Ip6Prefix) (l : Local) :
  (mLength aPrefix = 0 ->
     RemoveDomainPrefix P env aPrefix l = (kErrorInvalidArgs, l, []) /\
     mDomainPrefixConfig (after (RemoveDomainPrefix P env aPrefix l))
       = mDomainPrefixConfig l) /\
  (0 < mLength aPrefix ->
   PrefixEq P (mPrefix (mDomainPrefixConfig l)) aPrefix = false ->
     RemoveDomainPrefix P env aPrefix l = (kErrorNotFound, l, []) /\
     mDomainPrefixConfig (after (RemoveDomainPrefix P env aPrefix l))
       = mDomainPrefixConfig l).
Proof.
  split.
  - intros Hz.
    assert (E : RemoveDomainPrefix P env aPrefix l = (kErrorInvalidArgs, l, [])).
    { unfold RemoveDomainPrefix, bind, gets, ret. rewrite Hz. reflexivity. }
    rewrite E. split; reflexivity.
  - intros Hp Hne. apply Z.ltb_lt in Hp.
    assert (E : RemoveDomainPrefix P env aPrefix l = (kErrorNotFound, l, [])).
    { unfold RemoveDomainPrefix, bind, gets, ret. rewrite Hp, Hne. reflexivity. }
    rewrite E. split; reflexivity.
Qed.

Lemma RemoveDomainPrefix_failures_witness :
  mLength emptyPrefix = 0 /\
  0 < mLength otherPrefix /\
  PrefixEq samplePlatform (mPrefix (mDomainPrefixConfig sampleSecondary))
    otherPrefix = false /\
  RemoveDomainPrefix samplePlatform attachedEnv emptyPrefix sampleSecondary
    = (kErrorInvalidArgs, sampleSecondary, []) /\
  RemoveDomainPrefix samplePlatform attachedEnv otherPrefix sampleSecondary
    = (kErrorNotFound, sampleSecondary, []).
Proof.
  assert (Hp : 0 < mLength otherPrefix) by (simpl; lia).
  split; [reflexivity|]. split; [exact Hp|]. split; [reflexivity|].
  destruct (RemoveDomainPrefix_failures samplePlatform attachedEnv emptyPrefix
              sampleSecondary) as (Hz & _).
  destruct (RemoveDomainPrefix_failures samplePlatform attachedEnv otherPrefix
              sampleSecondary) as (_ & Hn).
  split.
  - apply Hz. reflexivity.
  - apply (Hn Hp). reflexivity.
Defined.

(** ** The Primary role implies a published service *)

(** Every member function keeps [primary_is_published]: the role becomes
    Primary only on an update that finds the flag set, and each withdrawal
    is followed by leaving the Primary role.  Hence an enabled instance
    whose flag is false is Secondary. *)
Lemma member_functions_keep_primary_published
    (P : Platform) (env : Env) (l : Local) :
  primary_is_published l ->
  (forall b, primary_is_published (after (SetEnabled P env b l))) /\
  primary_is_published (after (Reset P env l)) /\
  (forall c, primary_is_published (after (SetConfig P env c l))) /\
  (forall c, primary_is_published
               (after (HandleBackboneRouterPrimaryUpdate P env c l))) /\
  primary_is_published (after (HandleTimeTick env l)) /\
  (forall p, primary_is_published (after (RemoveDomainPrefix P env p l))).
Proof.
  unfold primary_is_published. intros H.
  destruct l as [s ? ? ? ? ? f ? ? ? ?]. simpl in H.
  repeat split; intros; destruct s, f;
    try (destruct b); try (specialize (H eq_refl));
    revert H0; run; intros; try discriminate; try reflexivity; auto.
Qed.

(** * Further properties of the code *)

(** ** The two bands of the sequence number *)

Lemma increase_n_add (a b : nat) (s : Z) :
  increase_n (a + b) s = increase_n b (increase_n a s).
Proof.
  revert s. induction a as [|a IH]; intros s; simpl; [reflexivity|apply IH].
Qed.

(** Inside a band and below its top, [n] increments add [n]. *)
Lemma increase_n_climb (b : Z) (n : nat) (s : Z) :
  b = 0 \/ b = 128 ->
  b <= s -> s + Z.of_nat n <= b + 126 ->
  increase_n n s = s + Z.of_nat n.
Proof.
  intros Hb. revert s. induction n as [|n IH]; intros s Hs Hn.
  - simpl. lia.
  - cbn [increase_n]. rewrite IH.
    + unfold increase, wrap8.
      destruct (Z.eqb_spec s 126); [lia|]. destruct (Z.eqb_spec s 127); [lia|].
      destruct (Z.eqb_spec s 254); [lia|]. destruct (Z.eqb_spec s 255); [lia|].
      simpl. rewrite Z.mod_small by lia. lia.
    + unfold increase, wrap8.
      destruct (Z.eqb_spec s 126); [lia|]. destruct (Z.eqb_spec s 127); [lia|].
      destruct (Z.eqb_spec s 254); [lia|]. destruct (Z.eqb_spec s 255); [lia|].
      simpl. rewrite Z.mod_small by lia. lia.
    + unfold increase, wrap8.
      destruct (Z.eqb_spec s 126); [lia|]. destruct (Z.eqb_spec s 127); [lia|].
      destruct (Z.eqb_spec s 254); [lia|]. destruct (Z.eqb_spec s 255); [lia|].
      simpl. rewrite Z.mod_small by lia. lia.
Qed.

Lemma increase_top (b : Z) : b = 0 \/ b = 128 -> increase (b + 126) = b.
Proof. intros [-> | ->]; reflexivity. Qed.

(** X1.  [increase] keeps an 8-bit sequence number in its band: a value
    of 0..127 goes to 0..126 and a value of 128..255 goes to 128..254.  In
    particular it never produces 127 or 255. *)
Theorem increase_stays_in_band (s : Z) :
  0 <= s <= 255 ->
  (s <= 127 -> 0 <= increase s <= 126) /\
  (128 <= s -> 128 <= increase s <= 254) /\
  increase s <> 127 /\ increase s <> 255.
Proof.
  intros Hs. unfold increase, wrap8.
  destruct (Z.eqb_spec s 126); [simpl; lia|].
  destruct (Z.eqb_spec s 127); [simpl; lia|].
  destruct (Z.eqb_spec s 254); [simpl; lia|].
  destruct (Z.eqb_spec s 255); [simpl; lia|].
  simpl. rewrite Z.mod_small by lia. lia.
Qed.

Lemma increase_stays_in_band_witness :
  0 <= 127 <= 255 /\ 0 <= increase 127 <= 126 /\ 128 <= increase 255 <= 254.
Proof.
  assert (H1 : 0 <= 127 <= 255) by lia.
  assert (H2 : 0 <= 255 <= 255) by lia.
  split; [exact H1|]. split.
  - apply (increase_stays_in_band 127 H1). lia.
  - apply (increase_stays_in_band 255 H2). lia.
Defined.

(** X2.  Inside a band the sequence number has period 127: from any value
    of 0..126 or 128..254, 127 increments lead back to it and no smaller
    positive number of increments does. *)
Theorem increase_period (s : Z) :
  0 <= s <= 126 \/ 128 <= s <= 254 ->
  increase_n 127 s = s /\
  (forall n : nat, (0 < n < 127)%nat -> increase_n n s <> s).
Proof.
  intros Hs.
  assert (Hb : exists b, (b = 0 \/ b = 128) /\ b <= s <= b + 126).
  { destruct Hs; [exists 0 | exists 128]; lia. }
  destruct Hb as (b & Hb & Hr).
  set (k := Z.to_nat (b + 126 - s)).
  set (m := Z.to_nat (s - b)).
  assert (Hwrap : forall j : nat, (j <= m)%nat ->
            increase_n (k + 1 + j) s = b + Z.of_nat j).
  { intros j Hj. rewrite increase_n_add, increase_n_add.
    rewrite (increase_n_climb b k s Hb) by lia.
    replace (s + Z.of_nat k) with (b + 126) by lia.
    cbn [increase_n]. rewrite (increase_top b Hb).
    apply (increase_n_climb b j b Hb); lia. }
  split.
  - replace 127%nat with (k + 1 + m)%nat by lia. rewrite Hwrap by lia. lia.
  - intros n Hn. destruct (Nat.le_gt_cases n k) as [Hle | Hgt].
    + rewrite (increase_n_climb b n s Hb) by lia. lia.
    + replace n with (k + 1 + (n - k - 1))%nat by lia.
      rewrite Hwrap by lia. lia.
Qed.

Lemma increase_period_witness :
  (0 <= 100 <= 126 \/ 128 <= 100 <= 254) /\
  increase_n 127 100 = 100 /\ increase_n 27 100 <> 100.
Proof.
  assert (H : 0 <= 100 <= 126 \/ 128 <= 100 <= 254) by lia.
  split; [exact H|].
  destruct (increase_period 100 H) as (Hp & Hm).
  split; [exact Hp|]. apply Hm. lia.
Defined.

(** ** A freshly constructed instance *)

(** X3.  Whatever byte the random source draws, the constructor yields a
    Disabled instance with an idle countdown, no published service, no
    stored Domain Prefix ([GetDomainPrefix] answers [kErrorNotFound]) and a
    sequence number of 0..126, in the lower band and below 127.  Until the
    instance is enabled, [Reset] and the Primary update leave it untouched
    and make no call. *)
Theorem Local_new_is_idle (P : Platform) (D : Defaults) (aRandom : Z)
    (aStorage : OnMeshPrefixConfig) (aAloc aCleared : Ip6Address) :
  let l := Local_new D aRandom aStorage aAloc aCleared in
  mState l = kStateDisabled /\
  mRegistrationTimeout l = 0 /\
  mIsServiceAdded l = false /\
  0 <= mSequenceNumber l <= 126 /\
  result (GetDomainPrefix l) = (kErrorNotFound, None) /\
  (forall env, Reset P env l = (tt, l, [])) /\
  (forall env c, HandleBackboneRouterPrimaryUpdate P env c l = (tt, l, [])).
Proof.
  cbv zeta. repeat split; try reflexivity.
  - apply Z.mod_pos_bound. lia.
  - pose proof (Z.mod_pos_bound aRandom 127). simpl. lia.
Qed.

(** ** Registration: guards, propagation of errors, the published flag *)

(** X4.  [AddService] returns [kErrorInvalidState], leaves the instance
    unchanged and hands nothing to the service manager when the instance
    is Disabled, when the node is not attached, or, in the
    decide-based-on-state mode, when the Leader records a Primary whose
    address is not this node's RLOC16. *)
Theorem AddService_invalid_state (env : Env) (m : RegisterMode) (l : Local) :
  IsEnabled l = false \/
  IsAttached env = false \/
  (m = kDecideBasedOnState /\ HasPrimary env = true /\
   GetServer16 env <> GetRloc16 env) ->
  AddService env m l =
    (kErrorInvalidState, l,
     [LogInfoService "Add" (mSequenceNumber l) (mReregistrationDelay l)
        (mMlrTimeout l) kErrorInvalidState]).
Proof.
  unfold IsEnabled. intros [H | [H | (Hm & Hp & Hs)]].
  - apply negb_false_iff in H. unfold_members. rewrite H. reflexivity.
  - unfold_members. rewrite H, andb_false_r. reflexivity.
  - apply Z.eqb_neq in Hs. subst m. unfold_members. rewrite Hp, Hs.
    destruct (negb (State_eqb (mState l) kStateDisabled) && IsAttached env);
      reflexivity.
Qed.

Lemma AddService_invalid_state_witness :
  (IsEnabled sampleSecondary = false \/
   IsAttached otherPrimaryEnv = false \/
   (kDecideBasedOnState = kDecideBasedOnState /\
    HasPrimary otherPrimaryEnv = true /\
    GetServer16 otherPrimaryEnv <> GetRloc16 otherPrimaryEnv)) /\
  result (AddService otherPrimaryEnv kDecideBasedOnState sampleSecondary)
    = kErrorInvalidState.
Proof.
  assert (H : IsEnabled sampleSecondary = false \/
              IsAttached otherPrimaryEnv = false \/
              (kDecideBasedOnState = kDecideBasedOnState /\
               HasPrimary otherPrimaryEnv = true /\
               GetServer16 otherPrimaryEnv <> GetRloc16 otherPrimaryEnv)).
  { right. right. split; [reflexivity|]. split; [reflexivity|]. simpl. lia. }
  split; [exact H|].
  rewrite (AddService_invalid_state otherPrimaryEnv kDecideBasedOnState
             sampleSecondary H).
  reflexivity.
Defined.

(** X5.  On an enabled instance of an attached node, in force mode, or in
    decide mode when no Primary is recorded or the recorded Primary is
    this node, [AddService] hands the record (sequence number, delay,
    timeout) to the service manager and returns the manager's answer.
    When the answer is [kErrorNone] the server-data change is notified
    and the published flag becomes true; on any other answer the
    instance stays as it was and no change is notified. *)
Theorem AddService_submits (env : Env) (m : RegisterMode) (l : Local) :
  IsEnabled l = true ->
  IsAttached env = true ->
  m = kForceRegistration \/ HasPrimary env = false \/
    GetServer16 env = GetRloc16 env ->
  let sd :=
    mkServerData (mSequenceNumber l) (mReregistrationDelay l) (mMlrTimeout l) in
  let e := ServiceAddResult env sd in
  let line :=
    LogInfoService "Add" (mSequenceNumber l) (mReregistrationDelay l)
      (mMlrTimeout l) e in
  result (AddService env m l) = e /\
  (e = kErrorNone ->
     after (AddService env m l) = set_mIsServiceAdded true l /\
     calls (AddService env m l) =
       [ServiceManagerAdd sd; HandleServerDataUpdated; line]) /\
  (e <> kErrorNone ->
     after (AddService env m l) = l /\
     calls (AddService env m l) = [ServiceManagerAdd sd; line]).
Proof.
  intros He Ha Hm sd e line. subst sd e line. unfold IsEnabled in He.
  assert (Hg : match m with
               | kDecideBasedOnState =>
                   negb (HasPrimary env) || (GetServer16 env =? GetRloc16 env)
               | kForceRegistration => true
               end = true).
  { destruct Hm as [-> | [Hp | Hs]]; [reflexivity| |].
    - destruct m; [rewrite Hp|]; reflexivity.
    - destruct m; [|reflexivity]. rewrite Hs, Z.eqb_refl. apply orb_true_r. }
  unfold_members. simpl. rewrite He, Ha. simpl. rewrite Hg.
  destruct (ServiceAddResult env _) eqn:E; simpl;
    repeat split; intros; try discriminate; try reflexivity; congruence.
Qed.

Lemma AddService_submits_witness :
  IsEnabled sampleSecondary = true /\
  IsAttached noBufsEnv = true /\
  (kDecideBasedOnState = kForceRegistration \/ HasPrimary noBufsEnv = false \/
   GetServer16 noBufsEnv = GetRloc16 noBufsEnv) /\
  result (AddService noBufsEnv kDecideBasedOnState sampleSecondary) = kErrorNoBufs /\
  after (AddService noBufsEnv kDecideBasedOnState sampleSecondary) = sampleSecondary /\
  after (AddService attachedEnv kDecideBasedOnState sampleSecondary)
    = set_mIsServiceAdded true sampleSecondary.
Proof.
  assert (Hm : kDecideBasedOnState = kForceRegistration \/
               HasPrimary noBufsEnv = false \/
               GetServer16 noBufsEnv = GetRloc16 noBufsEnv)
    by (right; left; reflexivity).
  destruct (AddService_submits noBufsEnv kDecideBasedOnState sampleSecondary
              eq_refl eq_refl Hm) as (Hr & _ & Hf).
  destruct (AddService_submits attachedEnv kDecideBasedOnState sampleSecondary
              eq_refl eq_refl Hm) as (_ & Hs & _).
  split; [reflexivity|]. split; [reflexivity|]. split; [exact Hm|].
  split; [exact Hr|]. split.
  - apply Hf. simpl. discriminate.
  - apply Hs. reflexivity.
Defined.

(** ** Disabling *)



(** X7.  Disabling and enabling again puts the stored Domain Prefix back
    into the network data: on an enabled instance that stores a prefix of
    positive length, [SetEnabled false] followed by [SetEnabled true] ends
    Secondary, still stores the same prefix, and the second call hands
    exactly that prefix configuration to [AddOnMeshPrefix]. *)
Theorem SetEnabled_off_on_restores_prefix (P : Platform) (env1 env2 : Env) (l : Local) :
  IsEnabled l = true ->
  0 < mLength (mPrefix (mDomainPrefixConfig l)) ->
  let r1 := SetEnabled P env1 false l in
  let r2 := SetEnabled P env2 true (after r1) in
  In (NetworkDataRemoveOnMeshPrefix (mPrefix (mDomainPrefixConfig l))) (calls r1) /\
  In (NetworkDataAddOnMeshPrefix (mDomainPrefixConfig l)) (calls r2) /\
  mState (after r2) = kStateSecondary /\
  mDomainPrefixConfig (after r2) = mDomainPrefixConfig l /\
  stored_config (after r2) = stored_config l.
Proof.
  intros He Hp r1 r2. subst r1 r2.
  apply Z.ltb_lt in Hp. unfold IsEnabled in He.
  destruct l as [s ? ? ? ? ? ? c ? ? ?]. unfold stored_config. simpl in Hp.
  destruct s; simpl in He; try discriminate;
    unfold_members; simpl; rewrite Hp; simpl;
    destruct (Error_isNone (ServiceRemoveResult env1)); simpl;
    rewrite ?Hp; simpl; repeat (break_if; simpl);
    repeat split; auto.
Qed.

Lemma SetEnabled_off_on_restores_prefix_witness :
  IsEnabled samplePrimary = true /\
  0 < mLength (mPrefix (mDomainPrefixConfig samplePrimary)) /\
  In (NetworkDataAddOnMeshPrefix (mDomainPrefixConfig samplePrimary))
    (calls (SetEnabled samplePlatform attachedEnv true
              (after (SetEnabled samplePlatform removableEnv false samplePrimary)))).
Proof.
  assert (Hp : 0 < mLength (mPrefix (mDomainPrefixConfig samplePrimary)))
    by (simpl; lia).
  split; [reflexivity|]. split; [exact Hp|].
  apply (SetEnabled_off_on_restores_prefix samplePlatform removableEnv attachedEnv
           samplePrimary eq_refl Hp).
Defined.

(** ** Accepted configurations *)

(** Turn the outcome of an equality test on integers into the equation. *)
Ltac eqb_subst :=
  repeat match goal with
         | H : negb (_ =? _) = false |- _ =>
             apply negb_false_iff in H; apply Z.eqb_eq in H; subst
         | H : (_ =? _) = true |- _ => apply Z.eqb_eq in H; subst
         end.

(** The three checks of [SetConfig] as one proposition. *)
Lemma SetConfig_checks (P : Platform) (c : Config.t) :
  ((referenceDevice P = true \/
    kMinMlrTimeout P <= Config.mMlrTimeout c <= kMaxMlrTimeout P) /\
   1 <= Config.mReregistrationDelay c /\
   2 * Config.mReregistrationDelay c < Config.mMlrTimeout c) <->
  (negb (referenceDevice P) &&
   negb ((kMinMlrTimeout P <=? Config.mMlrTimeout c) &&
         (Config.mMlrTimeout c <=? kMaxMlrTimeout P)) = false /\
   negb (1 <=? Config.mReregistrationDelay c) = false /\
   negb (Config.mReregistrationDelay c * 2 <? Config.mMlrTimeout c) = false).
Proof.
  destruct (referenceDevice P);
    destruct (Z.leb_spec (kMinMlrTimeout P) (Config.mMlrTimeout c));
    destruct (Z.leb_spec (Config.mMlrTimeout c) (kMaxMlrTimeout P));
    destruct (Z.leb_spec 1 (Config.mReregistrationDelay c));
    destruct (Z.ltb_spec (Config.mReregistrationDelay c * 2) (Config.mMlrTimeout c));
    simpl; split; intros Hyp; repeat split; try reflexivity;
    try (exfalso; intuition (try discriminate; lia));
    try lia; auto.
Qed.

(** X8.  [SetConfig] accepts a configuration exactly when the MLR timeout
    is inside [kMinMlrTimeout, kMaxMlrTimeout] (or the build is a
    reference device), the delay is at least 1 and twice the delay is
    below the timeout.  An accepted configuration returns [kErrorNone]
    whatever the registration that follows answers, and [GetConfig] then
    reads back its delay, timeout and sequence number; any other
    configuration returns [kErrorInvalidArgs] and changes nothing. *)
Theorem SetConfig_accepts_iff_valid (P : Platform) (env : Env) (c : Config.t) (l : Local) :
  let valid :=
    (referenceDevice P = true \/
     kMinMlrTimeout P <= Config.mMlrTimeout c <= kMaxMlrTimeout P) /\
    1 <= Config.mReregistrationDelay c /\
    2 * Config.mReregistrationDelay c < Config.mMlrTimeout c in
  let r := SetConfig P env c l in
  (valid ->
     result r = kErrorNone /\
     stored_config (after r) =
       (Config.mSequenceNumber c, Config.mReregistrationDelay c,
        Config.mMlrTimeout c) /\
     (forall c0, result (GetConfig c0 (after r)) =
        Config.mk (Config.mServer16 c0) (Config.mReregistrationDelay c)
          (Config.mMlrTimeout c) (Config.mSequenceNumber c))) /\
  (~ valid ->
     r = (kErrorInvalidArgs, l,
          [LogInfoService "Set" (mSequenceNumber l) (mReregistrationDelay l)
             (mMlrTimeout l) kErrorInvalidArgs])).
Proof.
  intros valid r. subst valid r. split.
  - intros Hv. apply SetConfig_checks in Hv. destruct Hv as (H1 & H2 & H3).
    destruct l, c. unfold stored_config. simpl in *.
    unfold SetConfig, bind at 1. simpl. rewrite H1, H2, H3.
    run; repeat split; intros; eqb_subst; reflexivity.
  - intros Hn.
    assert (Hc : ~ (negb (referenceDevice P) &&
                    negb ((kMinMlrTimeout P <=? Config.mMlrTimeout c) &&
                          (Config.mMlrTimeout c <=? kMaxMlrTimeout P)) = false /\
                    negb (1 <=? Config.mReregistrationDelay c) = false /\
                    negb (Config.mReregistrationDelay c * 2
                          <? Config.mMlrTimeout c) = false)).
    { intros Hc. apply Hn. apply SetConfig_checks. exact Hc. }
    unfold_members.
    destruct (negb (referenceDevice P) &&
              negb ((kMinMlrTimeout P <=? Config.mMlrTimeout c) &&
                    (Config.mMlrTimeout c <=? kMaxMlrTimeout P))); [reflexivity|].
    destruct (negb (1 <=? Config.mReregistrationDelay c)); [reflexivity|].
    destruct (negb (Config.mReregistrationDelay c * 2 <? Config.mMlrTimeout c));
      [reflexivity|].
    exfalso. apply Hc. repeat split; reflexivity.
Qed.

Lemma SetConfig_accepts_iff_valid_witness :
  ((referenceDevice samplePlatform = true \/
    kMinMlrTimeout samplePlatform <= Config.mMlrTimeout (Config.mk 0 10 500 77)
      <= kMaxMlrTimeout samplePlatform) /\
   1 <= Config.mReregistrationDelay (Config.mk 0 10 500 77) /\
   2 * Config.mReregistrationDelay (Config.mk 0 10 500 77)
     < Config.mMlrTimeout (Config.mk 0 10 500 77)) /\
  result (SetConfig samplePlatform noBufsEnv (Config.mk 0 10 500 77) sampleSecondary)
    = kErrorNone /\
  stored_config
    (after (SetConfig samplePlatform noBufsEnv (Config.mk 0 10 500 77) sampleSecondary))
    = (77, 10, 500) /\
  result (SetConfig samplePlatform attachedEnv (Config.mk 0 10 200 77) sampleSecondary)
    = kErrorInvalidArgs.
Proof.
  assert (Hv : (referenceDevice samplePlatform = true \/
                kMinMlrTimeout samplePlatform
                  <= Config.mMlrTimeout (Config.mk 0 10 500 77)
                  <= kMaxMlrTimeout samplePlatform) /\
               1 <= Config.mReregistrationDelay (Config.mk 0 10 500 77) /\
               2 * Config.mReregistrationDelay (Config.mk 0 10 500 77)
                 < Config.mMlrTimeout (Config.mk 0 10 500 77)).
  { simpl. split; [right; lia | lia]. }
  destruct (SetConfig_accepts_iff_valid samplePlatform noBufsEnv
              (Config.mk 0 10 500 77) sampleSecondary) as (Hok & _).
  destruct (Hok Hv) as (Hr & Hs & _).
  destruct (SetConfig_accepts_iff_valid samplePlatform attachedEnv
              (Config.mk 0 10 200 77) sampleSecondary) as (_ & Hbad).
  split; [exact Hv|]. split; [exact Hr|]. split; [exact Hs|].
  rewrite Hbad; [reflexivity|].
  simpl. intros (Hrange & _). destruct Hrange as [H | H]; [discriminate | lia].
Defined.

(** X9.  An accepted configuration that equals the stored one is silent:
    the instance is unchanged, nothing is signalled and no registration
    runs.  An accepted configuration that differs in the delay, the
    timeout or the sequence number signals the local change once and then
    runs [AddService kDecideBasedOnState] once on the updated instance. *)
Theorem SetConfig_notifies_on_change (P : Platform) (env : Env) (c : Config.t) (l : Local) :
  (referenceDevice P = true \/
   kMinMlrTimeout P <= Config.mMlrTimeout c <= kMaxMlrTimeout P) ->
  1 <= Config.mReregistrationDelay c ->
  2 * Config.mReregistrationDelay c < Config.mMlrTimeout c ->
  let new :=
    (Config.mSequenceNumber c, Config.mReregistrationDelay c, Config.mMlrTimeout c) in
  let l1 :=
    set_mSequenceNumber (Config.mSequenceNumber c)
      (set_mMlrTimeout (Config.mMlrTimeout c)
         (set_mReregistrationDelay (Config.mReregistrationDelay c) l)) in
  let line :=
    LogInfoService "Set" (Config.mSequenceNumber c) (Config.mReregistrationDelay c)
      (Config.mMlrTimeout c) kErrorNone in
  let r := SetConfig P env c l in
  (stored_config l = new -> r = (kErrorNone, l, [line])) /\
  (stored_config l <> new ->
     after r = after (AddService env kDecideBasedOnState l1) /\
     calls r =
       [NotifierSignal kEventThreadBackboneRouterLocalChanged] ++
       calls (AddService env kDecideBasedOnState l1) ++ [line] /\
     registration_attempts (calls r) = 1%nat).
Proof.
  intros Hr Hd Ht new l1 line r.
  assert (Hv : negb (referenceDevice P) &&
               negb ((kMinMlrTimeout P <=? Config.mMlrTimeout c) &&
                     (Config.mMlrTimeout c <=? kMaxMlrTimeout P)) = false /\
               negb (1 <=? Config.mReregistrationDelay c) = false /\
               negb (Config.mReregistrationDelay c * 2
                     <? Config.mMlrTimeout c) = false).
  { apply SetConfig_checks. auto. }
  destruct Hv as (H1 & H2 & H3).
  subst new l1 line r. destruct l, c. unfold stored_config. simpl in *.
  split.
  - intros E. injection E as -> -> ->.
    unfold SetConfig, bind at 1. simpl. rewrite H1, H2, H3.
    unfold_members. simpl. rewrite !Z.eqb_refl. reflexivity.
  - intros Hne.
    unfold SetConfig, bind at 1. simpl. rewrite H1, H2, H3.
    unfold registration_attempts.
    destruct (Z.eqb_spec mReregistrationDelay1 mReregistrationDelay0);
      destruct (Z.eqb_spec mMlrTimeout1 mMlrTimeout0);
      destruct (Z.eqb_spec mSequenceNumber1 mSequenceNumber0);
      subst; try (exfalso; apply Hne; reflexivity);
      repeat match goal with
             | H : _ <> _ |- _ => apply Z.eqb_neq in H
             end;
      unfold_members; simpl;
      repeat match goal with
             | H : (_ =? _) = false |- _ => rewrite H
             end;
      rewrite ?Z.eqb_refl; simpl; repeat (break_if; simpl);
      repeat split; reflexivity.
Qed.

Lemma SetConfig_notifies_on_change_witness :
  (referenceDevice samplePlatform = true \/
   kMinMlrTimeout samplePlatform <= Config.mMlrTimeout (Config.mk 0 5 3600 42)
     <= kMaxMlrTimeout samplePlatform) /\
  1 <= Config.mReregistrationDelay (Config.mk 0 5 3600 42) /\
  2 * Config.mReregistrationDelay (Config.mk 0 5 3600 42)
    < Config.mMlrTimeout (Config.mk 0 5 3600 42) /\
  SetConfig samplePlatform attachedEnv (Config.mk 0 5 3600 42) sampleSecondary =
    (kErrorNone, sampleSecondary, [LogInfoService "Set" 42 5 3600 kErrorNone]) /\
  registration_attempts
    (calls (SetConfig samplePlatform attachedEnv (Config.mk 0 5 3600 43) sampleSecondary))
    = 1%nat.
Proof.
  assert (Hr : referenceDevice samplePlatform = true \/
               kMinMlrTimeout samplePlatform <= 3600 <= kMaxMlrTimeout samplePlatform)
    by (right; simpl; lia).
  assert (Hd : 1 <= 5) by lia.
  assert (Ht : 2 * 5 < 3600) by lia.
  split; [exact Hr|]. split; [exact Hd|]. split; [exact Ht|].
  destruct (SetConfig_notifies_on_change samplePlatform attachedEnv
              (Config.mk 0 5 3600 42) sampleSecondary Hr Hd Ht) as (Hsame & _).
  destruct (SetConfig_notifies_on_change samplePlatform attachedEnv
              (Config.mk 0 5 3600 43) sampleSecondary Hr Hd Ht) as (_ & Hdiff).
  split.
  - apply Hsame. reflexivity.
  - apply Hdiff. unfold stored_config. simpl. intros E. discriminate E.
Defined.

(** ** The Primary update: guard and promotion *)

(** X10.  The Primary update does nothing at all, whatever it reports,
    while the instance is Disabled or the node is not attached. *)
Theorem HandleBackboneRouterPrimaryUpdate_inert
    (P : Platform) (env : Env) (aConfig : Config.t) (l : Local) :
  IsEnabled l = false \/ IsAttached env = false ->
  HandleBackboneRouterPrimaryUpdate P env aConfig l = (tt, l, []).
Proof.
  intros H. unfold HandleBackboneRouterPrimaryUpdate, bind, gets, when.
  destruct H as [H | H]; rewrite H; [|rewrite andb_false_r]; reflexivity.
Qed.

Lemma HandleBackboneRouterPrimaryUpdate_inert_witness :
  (IsEnabled sampleSecondary = false \/ IsAttached detachedEnv = false) /\
  HandleBackboneRouterPrimaryUpdate samplePlatform detachedEnv
    (Config.mk 65534 9 4000 7) sampleSecondary = (tt, sampleSecondary, []).
Proof.
  assert (H : IsEnabled sampleSecondary = false \/ IsAttached detachedEnv = false)
    by (right; reflexivity).
  split; [exact H|].
  apply (HandleBackboneRouterPrimaryUpdate_inert samplePlatform detachedEnv
           (Config.mk 65534 9 4000 7) sampleSecondary H).
Defined.

(** X11.  On an enabled instance of an attached node whose service is
    published, an update that names this node's valid RLOC16 as the holder
    makes the instance Primary and ignores the reported sequence number,
    delay and timeout.  A Secondary instance gets the Primary ALOC, with
    the mesh-local prefix put in, and one state-changed signal; an
    instance that is already Primary is left as it is, with no call. *)
Theorem HandleBackboneRouterPrimaryUpdate_promotes
    (P : Platform) (env : Env) (aConfig : Config.t) (l : Local) :
  IsEnabled l = true ->
  IsAttached env = true ->
  Config.mServer16 aConfig <> kShortAddrInvalid P ->
  Config.mServer16 aConfig = GetRloc16 env ->
  mIsServiceAdded l = true ->
  let r := HandleBackboneRouterPrimaryUpdate P env aConfig l in
  let aloc :=
    SetPrefix P (GetMeshLocalPrefix env) (mBackboneRouterPrimaryAloc l) in
  mState (after r) = kStatePrimary /\
  stored_config (after r) = stored_config l /\
  (mState l = kStateSecondary ->
     after r = set_mState kStatePrimary (set_mBackboneRouterPrimaryAloc aloc l) /\
     calls r =
       [NetifAddUnicastAddress aloc;
        NotifierSignal kEventThreadBackboneRouterStateChanged]) /\
  (mState l = kStatePrimary -> r = (tt, l, [])).
Proof.
  intros He Ha Hv Hs Hf r aloc. subst r aloc.
  apply Z.eqb_neq in Hv. unfold IsEnabled in He.
  destruct l as [s ? ? ? ? ? f ? ? ? ?]. simpl in He, Hf. subst f.
  unfold stored_config, HandleBackboneRouterPrimaryUpdate, bind at 1.
  unfold gets at 1, when, IsEnabled. simpl. rewrite Ha, Hv, Hs, Z.eqb_refl.
  destruct s; simpl in He; try discriminate; simpl;
    unfold_members; simpl; repeat split; intros; try discriminate; reflexivity.
Qed.

Lemma HandleBackboneRouterPrimaryUpdate_promotes_witness :
  IsEnabled (set_mIsServiceAdded true sampleSecondary) = true /\
  IsAttached selfPrimaryEnv = true /\
  Config.mServer16 (Config.mk 1024 9 4000 7) <> kShortAddrInvalid samplePlatform /\
  Config.mServer16 (Config.mk 1024 9 4000 7) = GetRloc16 selfPrimaryEnv /\
  mIsServiceAdded (set_mIsServiceAdded true sampleSecondary) = true /\
  mState (after (HandleBackboneRouterPrimaryUpdate samplePlatform selfPrimaryEnv
                   (Config.mk 1024 9 4000 7)
                   (set_mIsServiceAdded true sampleSecondary))) = kStatePrimary.
Proof.
  assert (Hv : Config.mServer16 (Config.mk 1024 9 4000 7)
               <> kShortAddrInvalid samplePlatform) by (simpl; lia).
  split; [reflexivity|]. split; [reflexivity|]. split; [exact Hv|].
  split; [reflexivity|]. split; [reflexivity|].
  apply (HandleBackboneRouterPrimaryUpdate_promotes samplePlatform selfPrimaryEnv
           (Config.mk 1024 9 4000 7) (set_mIsServiceAdded true sampleSecondary)
           eq_refl eq_refl Hv eq_refl eq_refl).
Defined.

(** ** From Disabled to Primary and back *)

(** X12.  The life cycle of a Primary.  A Disabled instance is enabled
    while the node is attached, no Primary is recorded and the service
    manager accepts the record; the Leader then reports this node as the
    holder; later [Reset] runs.  The instance goes Secondary, Primary,
    Secondary.  The sequence number published first is the one the
    instance started with, it is still that number while Primary, and it
    is increased exactly once at the end. *)
Theorem primary_life_cycle (P : Platform) (env1 env2 env3 : Env)
    (aConfig : Config.t) (l : Local) :
  mState l = kStateDisabled ->
  IsAttached env1 = true ->
  HasPrimary env1 = false ->
  (forall d, ServiceAddResult env1 d = kErrorNone) ->
  IsAttached env2 = true ->
  Config.mServer16 aConfig <> kShortAddrInvalid P ->
  Config.mServer16 aConfig = GetRloc16 env2 ->
  let r1 := SetEnabled P env1 true l in
  let r2 := HandleBackboneRouterPrimaryUpdate P env2 aConfig (after r1) in
  let r3 := Reset P env3 (after r2) in
  mState (after r1) = kStateSecondary /\
  In (ServiceManagerAdd
        (mkServerData (mSequenceNumber l) (mReregistrationDelay l) (mMlrTimeout l)))
     (calls r1) /\
  mState (after r2) = kStatePrimary /\
  mSequenceNumber (after r2) = mSequenceNumber l /\
  mState (after r3) = kStateSecondary /\
  mSequenceNumber (after r3) = increase (mSequenceNumber l).
Proof.
  intros Hd Ha1 Hp1 Hok Ha2 Hv Hself r1 r2 r3. subst r1 r2 r3.
  apply Z.eqb_neq in Hv.
  destruct l as [s ? ? ? ? ? ? ? ? ? ?]. simpl in Hd. subst s.
  unfold_members. simpl. rewrite Ha1, Hp1, Ha2, Hv, Hself, Z.eqb_refl.
  destruct (0 <? mLength (mPrefix mDomainPrefixConfig0)); simpl;
    rewrite Hok; simpl;
    destruct (Error_isNone (ServiceRemoveResult env3)); simpl;
    repeat split; auto.
Qed.

Lemma primary_life_cycle_witness :
  mState sampleDisabled = kStateDisabled /\
  IsAttached attachedEnv = true /\
  HasPrimary attachedEnv = false /\
  (forall d, ServiceAddResult attachedEnv d = kErrorNone) /\
  IsAttached selfPrimaryEnv = true /\
  Config.mServer16 (Config.mk 1024 9 4000 7) <> kShortAddrInvalid samplePlatform /\
  Config.mServer16 (Config.mk 1024 9 4000 7) = GetRloc16 selfPrimaryEnv /\
  mSequenceNumber
    (after (Reset samplePlatform otherPrimaryEnv
       (after (HandleBackboneRouterPrimaryUpdate samplePlatform selfPrimaryEnv
          (Config.mk 1024 9 4000 7)
          (after (SetEnabled samplePlatform attachedEnv true sampleDisabled))))))
  = 43.
Proof.
  assert (Hv : Config.mServer16 (Config.mk 1024 9 4000 7)
               <> kShortAddrInvalid samplePlatform) by (simpl; lia).
  assert (Hok : forall d, ServiceAddResult attachedEnv d = kErrorNone)
    by (intros d; reflexivity).
  split; [reflexivity|]. split; [reflexivity|]. split; [reflexivity|].
  split; [exact Hok|]. split; [reflexivity|]. split; [exact Hv|].
  split; [reflexivity|].
  destruct (primary_life_cycle samplePlatform attachedEnv selfPrimaryEnv
              otherPrimaryEnv (Config.mk 1024 9 4000 7) sampleDisabled
              eq_refl eq_refl eq_refl Hok eq_refl Hv eq_refl)
    as (_ & _ & _ & _ & _ & H).
  rewrite H. reflexivity.
Defined.

(** X13.  [Reset] bumps the sequence number at most once: whatever the
    state of the instance, a second [Reset] right after the first leaves
    the sequence number and the role state where the first left them. *)
Theorem Reset_twice (P : Platform) (env1 env2 : Env) (l : Local) :
  let r1 := Reset P env1 l in
  let r2 := Reset P env2 (after r1) in
  mSequenceNumber (after r2) = mSequenceNumber (after r1) /\
  mState (after r2) = mState (after r1) /\
  mState (after r2) <> kStatePrimary /\
  ~ In (NotifierSignal kEventThreadBackboneRouterLocalChanged) (calls r2).
Proof.
  cbv zeta. destruct l as [s ? ? ? ? ? ? ? ? ? ?].
  destruct s; run; repeat split; try discriminate; try reflexivity;
    intuition discriminate.
Qed.

(** ** The countdown over many ticks *)

Lemma set_mRegistrationTimeout_same (l : Local) :
  set_mRegistrationTimeout (mRegistrationTimeout l) l = l.
Proof. destruct l; reflexivity. Qed.

Lemma set_mRegistrationTimeout_twice (a b : Z) (l : Local) :
  set_mRegistrationTimeout a (set_mRegistrationTimeout b l) =
  set_mRegistrationTimeout a l.
Proof. destruct l; reflexivity. Qed.

(** A tick above 1 only decrements. *)
Lemma HandleTimeTick_decrements (env : Env) (l : Local) :
  GetRouterSelectionJitterTimeout env = 0 ->
  1 < mRegistrationTimeout l <= 65535 ->
  HandleTimeTick env l =
    (tt, set_mRegistrationTimeout (mRegistrationTimeout l - 1) l, []).
Proof.
  intros Hj Ht. destruct l as [? ? ? t ? ? ? ? ? ? ?]. simpl in Ht.
  unfold HandleTimeTick, when, bind, gets, modify, ret, call. rewrite Hj. simpl.
  assert (H0 : (0 <? t) = true) by (apply Z.ltb_lt; lia).
  assert (Hw : wrap16 (t - 1) = t - 1) by (apply Z.mod_small; lia).
  assert (H1 : (t - 1 =? 0) = false) by (apply Z.eqb_neq; lia).
  rewrite H0. unfold set_mRegistrationTimeout. simpl. rewrite Hw. simpl.
  rewrite H1. simpl. rewrite H1. reflexivity.
Qed.

(** The tick at 1 registers and unregisters. *)
Lemma HandleTimeTick_fires (env : Env) (l : Local) :
  GetRouterSelectionJitterTimeout env = 0 ->
  mRegistrationTimeout l = 1 ->
  HandleTimeTick env l =
    (tt, after (AddService env kDecideBasedOnState (set_mRegistrationTimeout 0 l)),
     calls (AddService env kDecideBasedOnState (set_mRegistrationTimeout 0 l)) ++
     [TimeTickerUnregisterReceiver]).
Proof.
  intros Hj Ht. destruct l as [? ? ? t ? ? ? ? ? ? ?]. simpl in Ht. subst t.
  unfold HandleTimeTick, when. unfold bind at 1 2. unfold gets at 1. rewrite Hj.
  run; reflexivity.
Qed.

Lemma ticks_silent (envs : list Env) :
  forall l : Local,
  Forall (fun env => GetRouterSelectionJitterTimeout env = 0) envs ->
  Z.of_nat (List.length envs) < mRegistrationTimeout l <= 65535 ->
  ticks envs l =
    (tt, set_mRegistrationTimeout
           (mRegistrationTimeout l - Z.of_nat (List.length envs)) l, []).
Proof.
  induction envs as [|env envs IH]; intros l Hf Ht.
  - simpl. rewrite Z.sub_0_r, set_mRegistrationTimeout_same. reflexivity.
  - inversion Hf as [|? ? Hj Hf']; subst.
    cbn [ticks]. unfold bind. cbn [List.length] in Ht |- *.
    rewrite (HandleTimeTick_decrements env l Hj) by lia.
    rewrite IH; [|exact Hf'|simpl; lia].
    rewrite set_mRegistrationTimeout_twice. simpl.
    replace (mRegistrationTimeout l - 1 - Z.of_nat (List.length envs))
      with (mRegistrationTimeout l - Z.of_nat (S (List.length envs))) by lia.
    reflexivity.
Qed.

Lemma ticks_app (xs ys : list Env) (l : Local) :
  ticks (xs ++ ys) l =
    (tt, after (ticks ys (after (ticks xs l))),
     calls (ticks xs l) ++ calls (ticks ys (after (ticks xs l)))).
Proof.
  revert l. induction xs as [|x xs IH]; intros l.
  - cbn [app ticks]. unfold ret, after, calls. cbn [fst snd app].
    destruct (ticks ys l) as [[[] l'] o]. reflexivity.
  - cbn [app ticks]. unfold bind.
    destruct (HandleTimeTick x l) as [[[] l1] o1].
    rewrite IH. unfold after, calls. simpl.
    destruct (ticks xs l1) as [[[] l2] o2]. simpl.
    rewrite app_assoc. reflexivity.
Qed.

(** X14.  A countdown of [n] (a 16-bit value, at least 1) fires after
    exactly [n] ticks without router-selection jitter: the first [n - 1]
    ticks make no call and leave the countdown at 1, and the [n]-th runs
    [AddService kDecideBasedOnState] once, then unregisters from the time
    ticker as the last call of the whole run, and leaves the countdown at
    0. *)
Theorem ticks_fire_after_countdown (envs : list Env) (env : Env) (l : Local) :
  Forall (fun e => GetRouterSelectionJitterTimeout e = 0) (envs ++ [env]) ->
  mRegistrationTimeout l = Z.of_nat (List.length envs) + 1 ->
  mRegistrationTimeout l <= 65535 ->
  let l0 := set_mRegistrationTimeout 0 l in
  let r := ticks (envs ++ [env]) l in
  ticks envs l = (tt, set_mRegistrationTimeout 1 l, []) /\
  after r = after (AddService env kDecideBasedOnState l0) /\
  calls r =
    calls (AddService env kDecideBasedOnState l0) ++ [TimeTickerUnregisterReceiver] /\
  mRegistrationTimeout (after r) = 0 /\
  registration_attempts (calls r) = 1%nat /\
  unregistrations (calls r) = 1%nat.
Proof.
  intros Hf Ht Hmax l0 r.
  apply Forall_app in Hf. destruct Hf as (Hf & Hj).
  inversion Hj as [|? ? Hj0 _]; subst.
  assert (E1 : ticks envs l = (tt, set_mRegistrationTimeout 1 l, [])).
  { rewrite (ticks_silent envs l Hf) by lia.
    replace (mRegistrationTimeout l - Z.of_nat (List.length envs)) with 1 by lia.
    reflexivity. }
  assert (E : r =
    (tt, after (AddService env kDecideBasedOnState l0),
     calls (AddService env kDecideBasedOnState l0) ++ [TimeTickerUnregisterReceiver])).
  { subst r l0. rewrite ticks_app, E1.
    change (after (tt, set_mRegistrationTimeout 1 l, @nil Call))
      with (set_mRegistrationTimeout 1 l).
    change (calls (tt, set_mRegistrationTimeout 1 l, @nil Call)) with (@nil Call).
    cbn [ticks app]. unfold bind, ret.
    rewrite (HandleTimeTick_fires env (set_mRegistrationTimeout 1 l) Hj0)
      by (destruct l; reflexivity).
    rewrite set_mRegistrationTimeout_twice.
    unfold after, calls. cbn [fst snd]. rewrite app_nil_r. reflexivity. }
  pose proof (AddService_one_attempt env kDecideBasedOnState l0) as Hone.
  pose proof (AddService_no_unregister env kDecideBasedOnState l0) as Hnone.
  pose proof (AddService_after env kDecideBasedOnState l0) as Haft.
  split; [exact E1|]. rewrite E. unfold after, calls in *. cbn [fst snd].
  split; [reflexivity|]. split; [reflexivity|]. split.
  - destruct Haft as [Ea | Ea]; rewrite Ea; destruct l; reflexivity.
  - split.
    + rewrite registration_attempts_app, Hone. reflexivity.
    + rewrite unregistrations_app, Hnone. reflexivity.
Qed.

Lemma ticks_fire_after_countdown_witness :
  Forall (fun e => GetRouterSelectionJitterTimeout e = 0)
    ([attachedEnv; leaderEnv; attachedEnv; attachedEnv] ++ [attachedEnv]) /\
  mRegistrationTimeout (set_mRegistrationTimeout 5 sampleSecondary) =
    Z.of_nat (List.length [attachedEnv; leaderEnv; attachedEnv; attachedEnv]) + 1 /\
  mRegistrationTimeout (set_mRegistrationTimeout 5 sampleSecondary) <= 65535 /\
  registration_attempts
    (calls (ticks ([attachedEnv; leaderEnv; attachedEnv; attachedEnv] ++ [attachedEnv])
              (set_mRegistrationTimeout 5 sampleSecondary))) = 1%nat.
Proof.
  assert (Hf : Forall (fun e => GetRouterSelectionJitterTimeout e = 0)
                 ([attachedEnv; leaderEnv; attachedEnv; attachedEnv] ++ [attachedEnv])).
  { repeat constructor. }
  assert (Hm : mRegistrationTimeout (set_mRegistrationTimeout 5 sampleSecondary)
               <= 65535) by (simpl; lia).
  split; [exact Hf|]. split; [reflexivity|]. split; [exact Hm|].
  apply (ticks_fire_after_countdown
           [attachedEnv; leaderEnv; attachedEnv; attachedEnv] attachedEnv
           (set_mRegistrationTimeout 5 sampleSecondary) Hf eq_refl Hm).
Defined.

(** X15.  The Leader claims a vacant role on the next tick.  On an enabled
    instance, a vacancy reported while this node is the Leader arms the
    countdown with 1; the next tick without router-selection jitter, the
    node still attached and no Primary recorded, hands the record with the
    instance's sequence number, delay and timeout to the service manager
    and then unregisters from the time ticker. *)
Theorem leader_registers_on_next_tick (P : Platform) (env1 env2 : Env)
    (aConfig : Config.t) (l : Local) :
  IsEnabled l = true ->
  IsAttached env1 = true ->
  IsLeader env1 = true ->
  Config.mServer16 aConfig = kShortAddrInvalid P ->
  GetRouterSelectionJitterTimeout env2 = 0 ->
  IsAttached env2 = true ->
  HasPrimary env2 = false ->
  let r1 := HandleBackboneRouterPrimaryUpdate P env1 aConfig l in
  let r2 := HandleTimeTick env2 (after r1) in
  let sd :=
    mkServerData (mSequenceNumber l) (mReregistrationDelay l) (mMlrTimeout l) in
  r1 = (tt, set_mRegistrationTimeout 1 l, [TimeTickerRegisterReceiver]) /\
  hd_error (calls r2) = Some (ServiceManagerAdd sd) /\
  last (calls r2) ServiceManagerRemove = TimeTickerUnregisterReceiver /\
  mRegistrationTimeout (after r2) = 0 /\
  mIsServiceAdded (after r2) =
    (if Error_isNone (ServiceAddResult env2 sd) then true else mIsServiceAdded l).
Proof.
  intros He Ha1 Hl Hv Hj Ha2 Hp r1 r2 sd. subst r1 r2 sd.
  unfold IsEnabled in He.
  destruct l as [s ? ? ? ? ? ? ? ? ? ?]. simpl in He.
  unfold_members. simpl.
  rewrite He, Ha1, Hl, Hv, Hj, Ha2, Hp, Z.eqb_refl. simpl.
  rewrite He. simpl.
  destruct (Error_isNone (ServiceAddResult env2 _)); simpl;
    repeat split; reflexivity.
Qed.

Lemma leader_registers_on_next_tick_witness :
  IsEnabled sampleSecondary = true /\
  IsAttached leaderEnv = true /\
  IsLeader leaderEnv = true /\
  Config.mServer16 (Config.mk 65534 0 0 0) = kShortAddrInvalid samplePlatform /\
  GetRouterSelectionJitterTimeout leaderEnv = 0 /\
  HasPrimary leaderEnv = false /\
  hd_error
    (calls (HandleTimeTick leaderEnv
              (after (HandleBackboneRouterPrimaryUpdate samplePlatform leaderEnv
                        (Config.mk 65534 0 0 0) sampleSecondary))))
  = Some (ServiceManagerAdd (mkServerData 42 5 3600)).
Proof.
  split; [reflexivity|]. split; [reflexivity|]. split; [reflexivity|].
  split; [reflexivity|]. split; [reflexivity|]. split; [reflexivity|].
  apply (leader_registers_on_next_tick samplePlatform leaderEnv leaderEnv
           (Config.mk 65534 0 0 0) sampleSecondary
           eq_refl eq_refl eq_refl eq_refl eq_refl eq_refl eq_refl).
Defined.

(** ** The stored Domain Prefix *)

(** X16.  [SetDomainPrefix] with a configuration that [IsValid] rejects
    returns [kErrorInvalidArgs], keeps the stored prefix and makes no
    call.  With a valid configuration it returns [kErrorNone] and stores
    the configuration, replacing any earlier one; [GetDomainPrefix] then
    returns it when its prefix length is positive and answers
    [kErrorNotFound] when the length is zero.  Nothing but the stored
    prefix changes. *)
Theorem SetDomainPrefix_then_Get (aIsValid : OnMeshPrefixConfig -> bool)
    (env : Env) (aConfig : OnMeshPrefixConfig) (l : Local) :
  let r := SetDomainPrefix aIsValid env aConfig l in
  (aIsValid aConfig = false -> r = (kErrorInvalidArgs, l, [])) /\
  (aIsValid aConfig = true ->
     result r = kErrorNone /\
     after r = set_mDomainPrefixConfig aConfig l /\
     (0 < mLength (mPrefix aConfig) ->
        result (GetDomainPrefix (after r)) = (kErrorNone, Some aConfig)) /\
     (mLength (mPrefix aConfig) = 0 ->
        result (GetDomainPrefix (after r)) = (kErrorNotFound, None))).
Proof.
  cbv zeta. split; intros Hv.
  - unfold SetDomainPrefix. rewrite Hv. reflexivity.
  - assert (E : after (SetDomainPrefix aIsValid env aConfig l)
                = set_mDomainPrefixConfig aConfig l /\
                result (SetDomainPrefix aIsValid env aConfig l) = kErrorNone).
    { unfold SetDomainPrefix. rewrite Hv. destruct l. run; split; reflexivity. }
    destruct E as (Ea & Er). rewrite Ea.
    split; [exact Er|]. split; [reflexivity|]. split; intros Hl.
    + apply Z.ltb_lt in Hl. unfold GetDomainPrefix, bind, gets, ret, result.
      simpl. rewrite Hl. reflexivity.
    + unfold GetDomainPrefix, bind, gets, ret, result. simpl. rewrite Hl.
      reflexivity.
Qed.

Lemma SetDomainPrefix_then_Get_witness :
  sampleIsValid (mkOnMeshPrefixConfig otherPrefix 3) = true /\
  0 < mLength (mPrefix (mkOnMeshPrefixConfig otherPrefix 3)) /\
  sampleIsValid (mkOnMeshPrefixConfig emptyPrefix 3) = false /\
  result (GetDomainPrefix
            (after (SetDomainPrefix sampleIsValid attachedEnv
                      (mkOnMeshPrefixConfig otherPrefix 3) sampleSecondary)))
    = (kErrorNone, Some (mkOnMeshPrefixConfig otherPrefix 3)) /\
  SetDomainPrefix sampleIsValid attachedEnv (mkOnMeshPrefixConfig emptyPrefix 3)
    sampleSecondary = (kErrorInvalidArgs, sampleSecondary, []).
Proof.
  assert (Hl : 0 < mLength (mPrefix (mkOnMeshPrefixConfig otherPrefix 3)))
    by (simpl; lia).
  destruct (SetDomainPrefix_then_Get sampleIsValid attachedEnv
              (mkOnMeshPrefixConfig otherPrefix 3) sampleSecondary) as (_ & Hok).
  destruct (Hok eq_refl) as (_ & _ & Hget & _).
  destruct (SetDomainPrefix_then_Get sampleIsValid attachedEnv
              (mkOnMeshPrefixConfig emptyPrefix 3) sampleSecondary) as (Hbad & _).
  split; [reflexivity|]. split; [exact Hl|]. split; [reflexivity|].
  split; [exact (Hget Hl) | exact (Hbad eq_refl)].
Defined.

(** X17.  What [SetDomainPrefix] tells the network data.  On a Disabled
    instance a valid configuration is stored with no network-data call at
    all.  On an enabled instance the prefix stored before, when it has a
    positive length, is removed from the network data first, and the new
    configuration, when it has a positive length, is added after it. *)
Theorem SetDomainPrefix_calls (aIsValid : OnMeshPrefixConfig -> bool)
    (env : Env) (aConfig : OnMeshPrefixConfig) (l : Local) :
  aIsValid aConfig = true ->
  let old := mPrefix (mDomainPrefixConfig l) in
  let r := SetDomainPrefix aIsValid env aConfig l in
  let line := LogInfoDomainPrefix "Set" (mPrefix aConfig) kErrorNone in
  (IsEnabled l = false -> calls r = [line]) /\
  (IsEnabled l = true ->
     calls r =
       (if 0 <? mLength old
        then [NetworkDataRemoveOnMeshPrefix old;
              LogInfoDomainPrefix "Remove" old (RemoveOnMeshPrefixResult env old)]
        else [LogInfoDomainPrefix "Remove" old kErrorNotFound]) ++
       [line] ++
       (if 0 <? mLength (mPrefix aConfig)
        then [NetworkDataAddOnMeshPrefix aConfig;
              LogInfoDomainPrefix "Add" (mPrefix aConfig)
                (AddOnMeshPrefixResult env aConfig)]
        else [LogInfoDomainPrefix "Add" (mPrefix aConfig) kErrorNotFound])).
Proof.
  intros Hv old r line. subst old r line. unfold IsEnabled.
  destruct l as [s ? ? ? ? ? ? ? ? ? ?].
  unfold SetDomainPrefix. rewrite Hv.
  split; intros He; destruct s; simpl in He; try discriminate;
    run; reflexivity.
Qed.

Lemma SetDomainPrefix_calls_witness :
  sampleIsValid (mkOnMeshPrefixConfig otherPrefix 3) = true /\
  IsEnabled sampleDisabled = false /\
  IsEnabled sampleSecondary = true /\
  calls (SetDomainPrefix sampleIsValid attachedEnv
           (mkOnMeshPrefixConfig otherPrefix 3) sampleDisabled)
    = [LogInfoDomainPrefix "Set" otherPrefix kErrorNone] /\
  calls (SetDomainPrefix sampleIsValid attachedEnv
           (mkOnMeshPrefixConfig otherPrefix 3) sampleSecondary)
    = [NetworkDataRemoveOnMeshPrefix sampleDomainPrefix;
       LogInfoDomainPrefix "Remove" sampleDomainPrefix kErrorNone;
       LogInfoDomainPrefix "Set" otherPrefix kErrorNone;
       NetworkDataAddOnMeshPrefix (mkOnMeshPrefixConfig otherPrefix 3);
       LogInfoDomainPrefix "Add" otherPrefix kErrorNone].
Proof.
  destruct (SetDomainPrefix_calls sampleIsValid attachedEnv
              (mkOnMeshPrefixConfig otherPrefix 3) sampleDisabled eq_refl)
    as (Hoff & _).
  destruct (SetDomainPrefix_calls sampleIsValid attachedEnv
              (mkOnMeshPrefixConfig otherPrefix 3) sampleSecondary eq_refl)
    as (_ & Hon).
  split; [reflexivity|]. split; [reflexivity|]. split; [reflexivity|].
  split; [exact (Hoff eq_refl) | exact (Hon eq_refl)].
Defined.

(** X18.  [RemoveDomainPrefix] with a prefix of positive length that
    compares equal to the stored one returns [kErrorNone] and sets the
    stored length to zero, keeping the bytes and the route metadata;
    [GetDomainPrefix] then answers [kErrorNotFound].  The prefix is taken
    out of the network data, when its stored length is positive, only if
    the instance is enabled; a Disabled instance makes no call. *)
Theorem RemoveDomainPrefix_success (P : Platform) (env : Env)
    (aPrefix : Ip6Prefix) (l : Local) :
  0 < mLength aPrefix ->
  PrefixEq P (mPrefix (mDomainPrefixConfig l)) aPrefix = true ->
  let c := mDomainPrefixConfig l in
  let r := RemoveDomainPrefix P env aPrefix l in
  result r = kErrorNone /\
  after r =
    set_mDomainPrefixConfig
      (mkOnMeshPrefixConfig (mkIp6Prefix (mPrefixBytes (mPrefix c)) 0)
         (mRouteMetadata c)) l /\
  result (GetDomainPrefix (after r)) = (kErrorNotFound, None) /\
  (IsEnabled l = false -> calls r = []) /\
  (IsEnabled l = true -> 0 < mLength (mPrefix c) ->
     calls r =
       [NetworkDataRemoveOnMeshPrefix (mPrefix c);
        LogInfoDomainPrefix "Remove" (mPrefix c)
          (RemoveOnMeshPrefixResult env (mPrefix c))]).
Proof.
  intros Hp He c r. subst c r. apply Z.ltb_lt in Hp.
  destruct l as [s ? ? ? ? ? ? c ? ? ?]. simpl in He.
  unfold_members. unfold SetLength. simpl. rewrite Hp, He. simpl.
  destruct s; simpl;
    destruct (0 <? mLength (mPrefix c)) eqn:El; simpl;
    repeat split; intros; try discriminate; try reflexivity;
    match goal with
    | H : 0 < _ |- _ => apply Z.ltb_lt in H; congruence
    end.
Qed.

Lemma RemoveDomainPrefix_success_witness :
  0 < mLength sampleDomainPrefix /\
  PrefixEq samplePlatform (mPrefix (mDomainPrefixConfig sampleSecondary))
    sampleDomainPrefix = true /\
  result (RemoveDomainPrefix samplePlatform attachedEnv sampleDomainPrefix
            sampleSecondary) = kErrorNone /\
  result (GetDomainPrefix
            (after (RemoveDomainPrefix samplePlatform attachedEnv sampleDomainPrefix
                      sampleSecondary))) = (kErrorNotFound, None).
Proof.
  assert (Hp : 0 < mLength sampleDomainPrefix) by (simpl; lia).
  destruct (RemoveDomainPrefix_success samplePlatform attachedEnv sampleDomainPrefix
              sampleSecondary Hp eq_refl) as (Hr & _ & Hg & _).
  split; [exact Hp|]. split; [reflexivity|]. split; [exact Hr | exact Hg].
Defined.

(** ** The multicast addresses *)

(** X19.  [ApplyMeshLocalPrefix] does nothing on a Disabled instance.  On
    an enabled one it unsubscribes the All Network Backbone Routers
    address as stored, puts the current mesh-local prefix into it and
    subscribes the result, in this order; when the instance is Primary it
    then removes the Primary ALOC and adds it back with the new prefix.
    The role state, the configuration, the published flag and the stored
    Domain Prefix are never touched. *)
Theorem ApplyMeshLocalPrefix_resubscribes (P : Platform)
    (aIsPrimary : Local -> bool) (env : Env) (l : Local) :
  let r := ApplyMeshLocalPrefix P aIsPrimary env l in
  let a :=
    SetMulticastNetworkPrefix P (GetMeshLocalPrefix env)
      (mAllNetworkBackboneRouters l) in
  let aloc :=
    SetPrefix P (GetMeshLocalPrefix env) (mBackboneRouterPrimaryAloc l) in
  (IsEnabled l = false -> r = (l, [])) /\
  (IsEnabled l = true ->
     mAllNetworkBackboneRouters (fst r) = a /\
     firstn 2 (snd r) =
       [UnsubscribeMulticast (mAllNetworkBackboneRouters l); SubscribeMulticast a] /\
     (aIsPrimary (set_mAllNetworkBackboneRouters a l) = false ->
        r = (set_mAllNetworkBackboneRouters a l,
             [UnsubscribeMulticast (mAllNetworkBackboneRouters l);
              SubscribeMulticast a])) /\
     (aIsPrimary (set_mAllNetworkBackboneRouters a l) = true ->
        r = (set_mBackboneRouterPrimaryAloc aloc
               (set_mAllNetworkBackboneRouters a l),
             [UnsubscribeMulticast (mAllNetworkBackboneRouters l);
              SubscribeMulticast a;
              Plain (NetifRemoveUnicastAddress (mBackboneRouterPrimaryAloc l));
              Plain (NetifAddUnicastAddress aloc)]))) /\
  mState (fst r) = mState l /\
  stored_config (fst r) = stored_config l /\
  mIsServiceAdded (fst r) = mIsServiceAdded l /\
  mRegistrationTimeout (fst r) = mRegistrationTimeout l /\
  mDomainPrefixConfig (fst r) = mDomainPrefixConfig l.
Proof.
  cbv zeta. unfold ApplyMeshLocalPrefix, stored_config.
  destruct l as [s ? ? ? ? ? ? ? ? ? ?]. unfold IsEnabled. simpl.
  destruct s; simpl;
    destruct (aIsPrimary _) eqn:Ep; simpl;
    repeat split; intros; try discriminate; try reflexivity.
Qed.

Lemma ApplyMeshLocalPrefix_resubscribes_witness :
  IsEnabled samplePrimary = true /\
  snd (ApplyMeshLocalPrefix samplePlatform sampleIsPrimary attachedEnv samplePrimary) =
    [UnsubscribeMulticast (mAllNetworkBackboneRouters samplePrimary);
     SubscribeMulticast [253; 222; 173; 0; 190; 239; 0; 0; 0; 0; 0; 0; 0; 0; 0; 3];
     Plain (NetifRemoveUnicastAddress (mBackboneRouterPrimaryAloc samplePrimary));
     Plain (NetifAddUnicastAddress
              [253; 222; 173; 0; 190; 239; 0; 0; 0; 0; 0; 255; 254; 0; 252; 56])].
Proof.
  split; [reflexivity|].
  destruct (ApplyMeshLocalPrefix_resubscribes samplePlatform sampleIsPrimary
              attachedEnv samplePrimary) as (_ & Hon & _).
  destruct (Hon eq_refl) as (_ & _ & _ & Hp).
  rewrite (Hp eq_refl). reflexivity.
Defined.

(** X20.  [HandleDomainPrefixUpdate], whenever it has a result: only the
    All Domain Backbone Routers address can change; a Disabled instance
    is left alone with no call; no call goes to the notifier, the service
    manager, the time ticker or the network data; the Removed event never
    subscribes and leaves the address as it was; the Added event never
    unsubscribes; and when the callback is not set, or the event is none
    of Added, Removed, Refreshed, the callback is not invoked. *)
Theorem HandleDomainPrefixUpdate_effects (P : Platform) (aCallbackIsSet : bool)
    (aLeaderPrefix : option Ip6Prefix) (aEvent : DomainPrefixEvent)
    (l l' : Local) (o : list BackboneCall) :
  HandleDomainPrefixUpdate P aCallbackIsSet aLeaderPrefix aEvent l = Some (l', o) ->
  l' = set_mAllDomainBackboneRouters (mAllDomainBackboneRouters l') l /\
  (IsEnabled l = false -> l' = l /\ o = []) /\
  (forall c, ~ In (Plain c) o) /\
  (aEvent = kDomainPrefixRemoved ->
     l' = l /\ forall a, ~ In (SubscribeMulticast a) o) /\
  (aEvent = kDomainPrefixAdded -> forall a, ~ In (UnsubscribeMulticast a) o) /\
  (aCallbackIsSet = false \/ aEvent = kDomainPrefixUnchanged ->
     forall e p, ~ In (DomainPrefixCallbackInvoke e p) o).
Proof.
  unfold HandleDomainPrefixUpdate, IsEnabled.
  destruct l as [s ? ? ? ? ? ? ? ? ? ?]. simpl.
  destruct s, aEvent, aLeaderPrefix, aCallbackIsSet; simpl; intros H;
    try discriminate; injection H as <- <-;
    repeat split; intros; try discriminate; try reflexivity;
    simpl; intuition discriminate.
Qed.

Lemma HandleDomainPrefixUpdate_effects_witness :
  HandleDomainPrefixUpdate samplePlatform true (Some sampleDomainPrefix)
    kDomainPrefixRefreshed sampleSecondary =
  Some (set_mAllDomainBackboneRouters
          [253; 0; 13; 184; 0; 0; 0; 0; 0; 0; 0; 0; 0; 0; 0; 3] sampleSecondary,
        [UnsubscribeMulticast (mAllDomainBackboneRouters sampleSecondary);
         SubscribeMulticast [253; 0; 13; 184; 0; 0; 0; 0; 0; 0; 0; 0; 0; 0; 0; 3];
         DomainPrefixCallbackInvoke OT_BACKBONE_ROUTER_DOMAIN_PREFIX_CHANGED
           (Some sampleDomainPrefix)]) /\
  forall c,
    ~ In (Plain c)
        [UnsubscribeMulticast (mAllDomainBackboneRouters sampleSecondary);
         SubscribeMulticast [253; 0; 13; 184; 0; 0; 0; 0; 0; 0; 0; 0; 0; 0; 0; 3];
         DomainPrefixCallbackInvoke OT_BACKBONE_ROUTER_DOMAIN_PREFIX_CHANGED
           (Some sampleDomainPrefix)].
Proof.
  split; [reflexivity|].
  apply (HandleDomainPrefixUpdate_effects samplePlatform true
           (Some sampleDomainPrefix) kDomainPrefixRefreshed sampleSecondary
           _ _ eq_refl).
Defined.

(** X21.  When the callback is set, an enabled instance invokes it exactly
    once, after the subscription changes, for each of the three named
    events: Added maps to ADDED, Removed to REMOVED and Refreshed to
    CHANGED, each time with the Leader's Domain Prefix pointer as it is.
    Refreshed unsubscribes the old address before subscribing the new one.
    Added and Refreshed read through the pointer, so they have a result
    only when the Leader holds a Domain Prefix. *)
Theorem HandleDomainPrefixUpdate_callback (P : Platform)
    (aLeaderPrefix : option Ip6Prefix) (l : Local) :
  IsEnabled l = true ->
  let old := mAllDomainBackboneRouters l in
  HandleDomainPrefixUpdate P true aLeaderPrefix kDomainPrefixRemoved l =
    Some (l, [UnsubscribeMulticast old;
              DomainPrefixCallbackInvoke OT_BACKBONE_ROUTER_DOMAIN_PREFIX_REMOVED
                aLeaderPrefix]) /\
  (forall p, aLeaderPrefix = Some p ->
     let a := SetMulticastNetworkPrefix P p old in
     HandleDomainPrefixUpdate P true aLeaderPrefix kDomainPrefixAdded l =
       Some (set_mAllDomainBackboneRouters a l,
             [SubscribeMulticast a;
              DomainPrefixCallbackInvoke OT_BACKBONE_ROUTER_DOMAIN_PREFIX_ADDED
                aLeaderPrefix]) /\
     HandleDomainPrefixUpdate P true aLeaderPrefix kDomainPrefixRefreshed l =
       Some (set_mAllDomainBackboneRouters a l,
             [UnsubscribeMulticast old; SubscribeMulticast a;
              DomainPrefixCallbackInvoke OT_BACKBONE_ROUTER_DOMAIN_PREFIX_CHANGED
                aLeaderPrefix])) /\
  (aLeaderPrefix = None ->
     HandleDomainPrefixUpdate P true aLeaderPrefix kDomainPrefixAdded l = None /\
     HandleDomainPrefixUpdate P true aLeaderPrefix kDomainPrefixRefreshed l = None).
Proof.
  intros He old. subst old. unfold HandleDomainPrefixUpdate. rewrite He. simpl.
  split; [reflexivity|]. split.
  - intros p ->. simpl. split; reflexivity.
  - intros ->. split; reflexivity.
Qed.

Lemma HandleDomainPrefixUpdate_callback_witness :
  IsEnabled sampleSecondary = true /\
  HandleDomainPrefixUpdate samplePlatform true None kDomainPrefixRemoved
    sampleSecondary =
  Some (sampleSecondary,
        [UnsubscribeMulticast (mAllDomainBackboneRouters sampleSecondary);
         DomainPrefixCallbackInvoke OT_BACKBONE_ROUTER_DOMAIN_PREFIX_REMOVED None]).
Proof.
  split; [reflexivity|].
  apply (HandleDomainPrefixUpdate_callback samplePlatform None sampleSecondary
           eq_refl).
Defined.

(** ** Invariants of the reachable instances *)

(** The sequence number stays an 8-bit value under every step. *)
Lemma step_keeps_sequence_range (P : Platform) (l l' : Local) :
  step P l l' ->
  0 <= mSequenceNumber l <= 255 ->
  0 <= mSequenceNumber l' <= 255.
Proof.
  intros Hs Hr. pose proof (increase_range (mSequenceNumber l) Hr) as Hi.
  destruct Hs as [env b l | env l | env c l Hc | env c l Hc | env l | env p l
                 | v env c l | isP env l | cb lp ev l l' o Hd
                 | env m l | l].
  11: { destruct l; simpl in *. assumption. }
  10: { destruct (AddService_after env m l) as [E | E]; rewrite E;
        destruct l; simpl in *; assumption. }
  - destruct l; simpl in *. run; simpl; assumption.
  - destruct l; simpl in *. run; simpl; assumption.
  - destruct l, c; simpl in *. run; simpl; eqb_subst; assumption.
  - pose proof (increase_range (Config.mSequenceNumber c) Hc) as Hic.
    destruct l, c; simpl in *. run; simpl; assumption.
  - destruct l; simpl in *. run; simpl; assumption.
  - destruct l; simpl in *. run; simpl; assumption.
  - destruct l; simpl in *. unfold SetDomainPrefix. run; simpl; assumption.
  - destruct l; simpl in *. unfold ApplyMeshLocalPrefix.
    repeat (break_if; simpl); assumption.
  - destruct l. unfold HandleDomainPrefixUpdate in Hd. simpl in *.
    destruct (IsEnabled _), ev, lp; simpl in Hd; try discriminate;
      injection Hd as <- _; simpl; repeat break_if; simpl; assumption.
Qed.

(** A Primary stays published under every step. *)
Lemma step_keeps_primary_published (P : Platform) (l l' : Local) :
  step P l l' -> primary_is_published l -> primary_is_published l'.
Proof.
  intros Hs Hp.
  destruct Hs as [env b l | env l | env c l Hc | env c l Hc | env l | env p l
                 | v env c l | isP env l | cb lp ev l l' o Hd
                 | env m l | l].
  11: { unfold primary_is_published in *. destruct l; simpl in *. exact Hp. }
  10: { unfold primary_is_published in *.
        destruct (AddService_after env m l) as [E | E]; rewrite E;
          destruct l; simpl in *; auto. }
  - apply (member_functions_keep_primary_published P env l Hp).
  - apply (member_functions_keep_primary_published P env l Hp).
  - apply (member_functions_keep_primary_published P env l Hp).
  - apply (member_functions_keep_primary_published P env l Hp).
  - apply (member_functions_keep_primary_published P env l Hp).
  - apply (member_functions_keep_primary_published P env l Hp).
  - unfold primary_is_published in *. destruct l as [s ? ? ? ? ? f ? ? ? ?].
    simpl in Hp. unfold SetDomainPrefix. destruct s, f;
      try specialize (Hp eq_refl); run; intros; try discriminate; auto.
  - unfold primary_is_published in *. destruct l as [s ? ? ? ? ? f ? ? ? ?].
    simpl in Hp. unfold ApplyMeshLocalPrefix.
    repeat (break_if; simpl); assumption.
  - unfold primary_is_published in *. destruct l as [s ? ? ? ? ? f ? ? ? ?].
    unfold HandleDomainPrefixUpdate in Hd. simpl in *.
    destruct (IsEnabled _), ev, lp; simpl in Hd; try discriminate;
      injection Hd as <- _; simpl; assumption.
Qed.

(** Called on their own the two helpers do break it: a withdrawal that
    succeeds on a Primary clears the flag, and [SetState] promotes an
    instance without looking at the flag. *)
Lemma helpers_alone_break_publication :
  primary_is_published samplePrimary /\
  ~ primary_is_published (after (RemoveService removableEnv samplePrimary)) /\
  primary_is_published sampleSecondary /\
  ~ primary_is_published
      (after (SetState samplePlatform attachedEnv kStatePrimary sampleSecondary)).
Proof.
  unfold primary_is_published. repeat split.
  - intros H. specialize (H eq_refl). discriminate.
  - intros H. discriminate.
  - intros H. specialize (H eq_refl). discriminate.
Qed.

Lemma reachable_keeps_invariants (P : Platform) (l : Local) :
  reachable P l ->
  primary_is_published l /\ 0 <= mSequenceNumber l <= 255.
Proof.
  intros Hr. induction Hr as [D r st aloc cl | l l' Hr IH Hs].
  - split.
    + unfold primary_is_published. simpl. discriminate.
    + simpl. pose proof (Z.mod_pos_bound r 127). lia.
  - destruct IH as (Hp & Hq). split.
    + exact (step_keeps_primary_published P l l' Hs Hp).
    + exact (step_keeps_sequence_range P l l' Hs Hq).
Qed.

(** X22.  On every instance that the constructor followed by any calls of
    [SetEnabled], [Reset], [SetConfig], [HandleBackboneRouterPrimaryUpdate],
    [HandleTimeTick], [RemoveDomainPrefix], [SetDomainPrefix],
    [ApplyMeshLocalPrefix], [HandleDomainPrefixUpdate], [AddService] and
    [SequenceNumberIncrease] can produce, with 8-bit sequence numbers in
    the configurations passed in: a Primary instance has its service
    published, the sequence number is an 8-bit value, and an enabled
    instance whose service is not published is Secondary.  The two
    helpers [RemoveService] and [SetState] are not among the calls. *)
Theorem reachable_invariants (P : Platform) (l : Local) :
  reachable P l ->
  (mState l = kStatePrimary -> mIsServiceAdded l = true) /\
  0 <= mSequenceNumber l <= 255 /\
  (IsEnabled l = true -> mIsServiceAdded l = false -> mState l = kStateSecondary).
Proof.
  intros Hr.
  destruct (reachable_keeps_invariants P l Hr) as (Hp & Hq).
  split; [exact Hp|]. split; [exact Hq|].
  intros He Hf. unfold IsEnabled in He. unfold primary_is_published in Hp.
  destruct (mState l); simpl in He; try discriminate; [reflexivity|].
  rewrite (Hp eq_refl) in Hf. discriminate.
Qed.

Lemma reachable_invariants_witness :
  reachable samplePlatform
    (after (HandleBackboneRouterPrimaryUpdate samplePlatform selfPrimaryEnv
              (Config.mk 1024 9 4000 7)
              (after (SetEnabled samplePlatform attachedEnv true sampleNew)))) /\
  mState
    (after (HandleBackboneRouterPrimaryUpdate samplePlatform selfPrimaryEnv
              (Config.mk 1024 9 4000 7)
              (after (SetEnabled samplePlatform attachedEnv true sampleNew))))
    = kStatePrimary /\
  mIsServiceAdded
    (after (HandleBackboneRouterPrimaryUpdate samplePlatform selfPrimaryEnv
              (Config.mk 1024 9 4000 7)
              (after (SetEnabled samplePlatform attachedEnv true sampleNew))))
    = true.
Proof.
  assert (Hr : reachable samplePlatform
    (after (HandleBackboneRouterPrimaryUpdate samplePlatform selfPrimaryEnv
              (Config.mk 1024 9 4000 7)
              (after (SetEnabled samplePlatform attachedEnv true sampleNew))))).
  { eapply reachable_step.
    - eapply reachable_step.
      + apply reachable_new.
      + apply step_SetEnabled.
    - apply step_PrimaryUpdate. simpl. lia. }
  split; [exact Hr|]. split; [reflexivity|].
  destruct (reachable_invariants samplePlatform _ Hr) as (Hp & _).
  apply Hp. reflexivity.
Defined.

(** X23.  On a reachable, enabled instance whose service is not
    published, an update that names another valid holder changes no field
    of the instance; what it does is the service withdrawal of [Reset],
    which is handed to the service manager all the same. *)
Theorem other_holder_on_unpublished (P : Platform) (env : Env)
    (aConfig : Config.t) (l : Local) :
  reachable P l ->
  IsEnabled l = true ->
  mIsServiceAdded l = false ->
  IsAttached env = true ->
  Config.mServer16 aConfig <> kShortAddrInvalid P ->
  Config.mServer16 aConfig <> GetRloc16 env ->
  after (HandleBackboneRouterPrimaryUpdate P env aConfig l) = l /\
  calls (HandleBackboneRouterPrimaryUpdate P env aConfig l) =
    calls (RemoveService env l) /\
  hd_error (calls (HandleBackboneRouterPrimaryUpdate P env aConfig l)) =
    Some ServiceManagerRemove.
Proof.
  intros Hr He Hf Ha Hv Ho.
  destruct (reachable_keeps_invariants P l Hr) as (Hp & _).
  apply Z.eqb_neq in Hv, Ho. unfold IsEnabled in He.
  unfold primary_is_published in Hp.
  destruct l as [s ? ? ? ? ? f ? ? ? ?]. simpl in He, Hf, Hp. subst f.
  destruct s; simpl in He; try discriminate;
    [|specialize (Hp eq_refl); discriminate].
  unfold_members. simpl. rewrite Ha, Hv, Ho. simpl.
  destruct (Error_isNone (ServiceRemoveResult env)); simpl;
    repeat split; reflexivity.
Qed.

Lemma other_holder_on_unpublished_witness :
  reachable samplePlatform
    (after (SetEnabled samplePlatform otherPrimaryEnv true sampleNew)) /\
  IsEnabled (after (SetEnabled samplePlatform otherPrimaryEnv true sampleNew)) = true /\
  mIsServiceAdded (after (SetEnabled samplePlatform otherPrimaryEnv true sampleNew))
    = false /\
  IsAttached otherPrimaryEnv = true /\
  Config.mServer16 (Config.mk 2048 9 4000 7) <> kShortAddrInvalid samplePlatform /\
  Config.mServer16 (Config.mk 2048 9 4000 7) <> GetRloc16 otherPrimaryEnv /\
  after (HandleBackboneRouterPrimaryUpdate samplePlatform otherPrimaryEnv
           (Config.mk 2048 9 4000 7)
           (after (SetEnabled samplePlatform otherPrimaryEnv true sampleNew)))
  = after (SetEnabled samplePlatform otherPrimaryEnv true sampleNew).
Proof.
  assert (Hr : reachable samplePlatform
                 (after (SetEnabled samplePlatform otherPrimaryEnv true sampleNew))).
  { eapply reachable_step; [apply reachable_new | apply step_SetEnabled]. }
  assert (Hv : Config.mServer16 (Config.mk 2048 9 4000 7)
               <> kShortAddrInvalid samplePlatform) by (simpl; lia).
  assert (Ho : Config.mServer16 (Config.mk 2048 9 4000 7)
               <> GetRloc16 otherPrimaryEnv) by (simpl; lia).
  split; [exact Hr|]. split; [reflexivity|]. split; [reflexivity|].
  split; [reflexivity|]. split; [exact Hv|]. split; [exact Ho|].
  apply (other_holder_on_unpublished samplePlatform otherPrimaryEnv
           (Config.mk 2048 9 4000 7) _ Hr eq_refl eq_refl eq_refl Hv Ho).
Defined.

(** ** What a Disabled instance or a detached node never does *)

(** X24.  While the instance is Disabled or the node is not attached, no
    record reaches the service manager and a published flag that is false
    stays false: this holds for [SetConfig], for the tick handler even
    when its countdown fires, for the Primary update, for [Reset], for
    [SetEnabled false], and for [SetEnabled true] on a node that is not
    attached. *)
Theorem no_publication_when_disabled_or_detached (P : Platform) (env : Env)
    (l : Local) (d : ServerData) :
  IsEnabled l = false \/ IsAttached env = false ->
  (forall c,
     ~ In (ServiceManagerAdd d) (calls (SetConfig P env c l)) /\
     (mIsServiceAdded l = false ->
      mIsServiceAdded (after (SetConfig P env c l)) = false)) /\
  (~ In (ServiceManagerAdd d) (calls (HandleTimeTick env l)) /\
   (mIsServiceAdded l = false ->
    mIsServiceAdded (after (HandleTimeTick env l)) = false)) /\
  (forall c,
     ~ In (ServiceManagerAdd d)
         (calls (HandleBackboneRouterPrimaryUpdate P env c l)) /\
     (mIsServiceAdded l = false ->
      mIsServiceAdded (after (HandleBackboneRouterPrimaryUpdate P env c l))
        = false)) /\
  (~ In (ServiceManagerAdd d) (calls (Reset P env l)) /\
   (mIsServiceAdded l = false ->
    mIsServiceAdded (after (Reset P env l)) = false)) /\
  (~ In (ServiceManagerAdd d) (calls (SetEnabled P env false l)) /\
   (mIsServiceAdded l = false ->
    mIsServiceAdded (after (SetEnabled P env false l)) = false)) /\
  (IsAttached env = false ->
   ~ In (ServiceManagerAdd d) (calls (SetEnabled P env true l)) /\
   (mIsServiceAdded l = false ->
    mIsServiceAdded (after (SetEnabled P env true l)) = false)).
Proof.
  unfold IsEnabled. intros H.
  destruct l as [s ? ? ? ? ? f ? ? ? ?]. simpl in H.
  assert (Hg : negb (State_eqb s kStateDisabled) && IsAttached env = false).
  { destruct H as [H | H]; rewrite H; [reflexivity | apply andb_false_r]. }
  split; [|split; [|split; [|split; [|split]]]].
  6: { intros Ha. clear H Hg.
       repeat split; intros; destruct s;
         unfold_members; simpl; rewrite ?Ha, ?andb_false_r; simpl;
         repeat (break_if; simpl); subst; simpl;
         try reflexivity; try assumption; intuition discriminate. }
  all: repeat split; intros; destruct s; simpl in Hg;
    unfold_members; simpl; rewrite ?Hg; simpl;
    repeat (break_if; simpl); subst; simpl;
    try reflexivity; try assumption; intuition discriminate.
Qed.

Lemma no_publication_when_disabled_or_detached_witness :
  (IsEnabled (set_mRegistrationTimeout 1 sampleDisabled) = false \/
   IsAttached attachedEnv = false) /\
  calls (HandleTimeTick attachedEnv (set_mRegistrationTimeout 1 sampleDisabled)) =
    [LogInfoService "Add" 42 5 3600 kErrorInvalidState;
     TimeTickerUnregisterReceiver] /\
  ~ In (ServiceManagerAdd (mkServerData 42 5 3600))
      (calls (HandleTimeTick attachedEnv (set_mRegistrationTimeout 1 sampleDisabled))) /\
  mIsServiceAdded
    (after (Reset samplePlatform attachedEnv
              (set_mRegistrationTimeout 1 sampleDisabled))) = false.
Proof.
  assert (H : IsEnabled (set_mRegistrationTimeout 1 sampleDisabled) = false \/
              IsAttached attachedEnv = false) by (left; reflexivity).
  destruct (no_publication_when_disabled_or_detached samplePlatform attachedEnv
              (set_mRegistrationTimeout 1 sampleDisabled) (mkServerData 42 5 3600) H)
    as (_ & (Htick & _) & _ & (_ & Hreset) & _).
  split; [exact H|]. split; [reflexivity|]. split; [exact Htick|].
  apply Hreset. reflexivity.
Defined.
